(** * mockgcp/mocklogging: the logging-link name codec and mock CRUD handlers,
      and the LoggingLink field mapper

    A shallow embedding of [mockgcp/mocklogging/logginglink.go] (both copies of
    the file: the [configService] handlers for [pb.LoggingLink] and the
    [linkService] handlers for [pb.Link]) and of the mapper functions
    [LoggingLinkSpec_FromProto] / [LoggingLinkSpec_ToProto].

    Go values are modelled as follows: a [string] is a Rocq [string] (a byte
    sequence); a pointer that may be nil is an [option]; a function returning
    [(T, error)] returns a [result T]; a run-time panic (index out of range,
    nil dereference, failed type assertion) is the third outcome of [result]; the storage behind a
    handler is threaded explicitly through the state monad [M]. *)

From stdpp Require Import base option list strings gmap fin_maps.
From Stdlib Require Import ZArith Lia Ascii String.

Local Open Scope string_scope.

(** ** Outcomes of a Go call *)

(** [codes.Code] of google.golang.org/grpc/codes, the ones the handlers use. *)
Inductive Code := InvalidArgument | NotFound | AlreadyExists.

(** A [status.Errorf(code, format, args...)] value, kept as the call that
    built it: the code, the format string and the arguments in order. *)
Record Status := Errorf { code : Code; format : string; args : list string }.

Inductive PanicKind := IndexOutOfRange | NilDereference | InterfaceConversion.

Inductive result (A : Type) :=
| Ok (a : A)
| Err (e : Status)
| Panic (p : PanicKind).
Arguments Ok {A} a.
Arguments Err {A} e.
Arguments Panic {A} p.

(** Sequencing: an error or a panic ends the call. *)
#[global] Instance result_bind : MBind result := λ A B k r,
  match r with
  | Ok a => k a
  | Err e => Err e
  | Panic p => Panic p
  end.
#[global] Instance result_ret : MRet result := λ A a, Ok a.

#[global] Instance Code_eq_dec : EqDecision Code.
Proof. solve_decision. Defined.
#[global] Instance Status_eq_dec : EqDecision Status.
Proof. solve_decision. Defined.

(** ** strings.Split(name, "/") *)

Definition slash : ascii := "/"%char.

(** The tokens of [s] between the occurrences of the separator; a string
    without separator is its own single token, as in Go. *)
Fixpoint split_slash (s : string) : list string :=
  match s with
  | EmptyString => [EmptyString]
  | String c r =>
      if decide (c = slash) then EmptyString :: split_slash r
      else match split_slash r with
           | t :: ts => String c t :: ts
           | [] => [String c EmptyString]
           end
  end.

Fixpoint no_slash (s : string) : bool :=
  match s with
  | EmptyString => true
  | String c r => if decide (c = slash) then false else no_slash r
  end.

(** ** The resource identity *)

(** [projects.ProjectData], of which the codec reads [ID]. *)
Record ProjectData := { ID : string; Number : Z }.

Record loggingLinkName := {
  project : option ProjectData;
  folder : string;
  organization : string;
  billingAccount : string;
  location : string;
  BucketName : string;
  LinkName : string
}.

#[global] Instance ProjectData_eq_dec : EqDecision ProjectData.
Proof. solve_decision. Defined.
#[global] Instance loggingLinkName_eq_dec : EqDecision loggingLinkName.
Proof. solve_decision. Defined.

Definition path_tail (n : loggingLinkName) : string :=
  "/locations/" +:+ location n +:+ "/buckets/" +:+ BucketName n
  +:+ "/links/" +:+ LinkName n.

(** The [String] method of [loggingLinkName]: the parent kind is chosen in the order
    organization, folder, billing account, and the project otherwise; reading
    [n.project.ID] through a nil [project] panics. *)
Definition loggingLinkName_String (n : loggingLinkName) : result string :=
  if negb (String.eqb (organization n) "") then
    Ok ("organizations/" +:+ organization n +:+ path_tail n)
  else if negb (String.eqb (folder n) "") then
    Ok ("folders/" +:+ folder n +:+ path_tail n)
  else if negb (String.eqb (billingAccount n) "") then
    Ok ("billingAccounts/" +:+ billingAccount n +:+ path_tail n)
  else
    match project n with
    | Some p => Ok ("projects/" +:+ ID p +:+ path_tail n)
    | None => Panic NilDereference
    end.

(** ** parseLoggingLinkName *)

(** [tokens[i]]: indexing past the end panics. *)
Definition tok (tokens : list string) (i : nat) : result string :=
  match tokens !! i with
  | Some t => Ok t
  | None => Panic IndexOutOfRange
  end.

(** [a && b] on conditions that may panic: [b] is evaluated only when [a]
    is true. *)
Definition rand (a b : result bool) : result bool :=
  a ≫= λ x : bool, if x then b else Ok false.
Infix "&&&" := rand (at level 40, left associativity).

Definition tok_is (tokens : list string) (i : nat) (lit : string) : result bool :=
  t ← tok tokens i; Ok (String.eqb t lit).

(** The guard of one branch: [len(tokens) == n && tokens[0] == kind &&
    tokens[2] == "locations" && tokens[4] == "buckets" && tokens[6] == "links"]. *)
Definition shape (tokens : list string) (n : nat) (kind : string) : result bool :=
  Ok (Nat.eqb (List.length tokens) n) &&& tok_is tokens 0 kind
  &&& tok_is tokens 2 "locations" &&& tok_is tokens 4 "buckets"
  &&& tok_is tokens 6 "links".

Section Codec.

(** [s.Projects.GetProjectByID]: the project resolver of
    mockgcp/common/projects, a collaborator of this file. *)
Variable GetProjectByID : string → result ProjectData.

Definition parseLoggingLinkName (name : string) : result loggingLinkName :=
  let tokens := split_slash name in
  shape tokens 8 "projects" ≫= λ c1 : bool,
   if c1 then
     t1 ← tok tokens 1;
     p ← GetProjectByID t1;
     t3 ← tok tokens 3; t5 ← tok tokens 5; t7 ← tok tokens 7;
     Ok {| project := Some p; folder := ""; organization := "";
           billingAccount := ""; location := t3; BucketName := t5;
           LinkName := t7 |}
   else
   shape tokens 8 "folders" ≫= λ c2 : bool,
   if c2 then
     t1 ← tok tokens 1;
     t3 ← tok tokens 3; t5 ← tok tokens 5; t7 ← tok tokens 7;
     Ok {| project := None; folder := t1; organization := "";
           billingAccount := ""; location := t3; BucketName := t5;
           LinkName := t7 |}
   else
   shape tokens 6 "organizations" ≫= λ c3 : bool,
   if c3 then
     t1 ← tok tokens 1;
     t3 ← tok tokens 3; t5 ← tok tokens 5; t7 ← tok tokens 7;
     Ok {| project := None; folder := ""; organization := t1;
           billingAccount := ""; location := t3; BucketName := t5;
           LinkName := t7 |}
   else
   shape tokens 6 "billingAccounts" ≫= λ c4 : bool,
   if c4 then
     t1 ← tok tokens 1;
     t3 ← tok tokens 3; t5 ← tok tokens 5; t7 ← tok tokens 7;
     Ok {| project := None; folder := ""; organization := "";
           billingAccount := t1; location := t3; BucketName := t5;
           LinkName := t7 |}
   else
     Err (Errorf InvalidArgument "name %q is not valid" [name]).

End Codec.

(** ** Wire messages *)

(** [timestamppb.Timestamp]. *)
Record Timestamp := { seconds : Z; nanos : Z }.

(** [pb.LifecycleState], an int32 enumeration. *)
Definition LifecycleState := Z.
Definition LifecycleState_LIFECYCLE_STATE_UNSPECIFIED : LifecycleState := 0%Z.
Definition LifecycleState_ACTIVE : LifecycleState := 1%Z.

Module BigQueryDataset.
Record t := { DatasetId : string }.
End BigQueryDataset.

(** [pb.LogBucket], with the fields the handlers write. *)
Module LogBucket.
Record t := {
  Name : string;
  Description : string;
  LifecycleState : LifecycleState;
  RetentionDays : Z
}.
End LogBucket.

(** [pb.LoggingLink], the record of the [configService] handlers. *)
Module LoggingLink.
Record t := {
  Name : string;
  Description : string;
  CreateTime : option Timestamp;
  UpdateTime : option Timestamp;
  LifecycleState : LifecycleState;
  BigqueryDataset : option BigQueryDataset.t
}.
Definition zero : t :=
  {| Name := ""; Description := ""; CreateTime := None; UpdateTime := None;
     LifecycleState := 0%Z; BigqueryDataset := None |}.
Definition set_Name (v : string) (o : t) : t :=
  {| Name := v; Description := Description o; CreateTime := CreateTime o;
     UpdateTime := UpdateTime o; LifecycleState := LifecycleState o;
     BigqueryDataset := BigqueryDataset o |}.
Definition set_Description (v : string) (o : t) : t :=
  {| Name := Name o; Description := v; CreateTime := CreateTime o;
     UpdateTime := UpdateTime o; LifecycleState := LifecycleState o;
     BigqueryDataset := BigqueryDataset o |}.
Definition set_CreateTime (v : option Timestamp) (o : t) : t :=
  {| Name := Name o; Description := Description o; CreateTime := v;
     UpdateTime := UpdateTime o; LifecycleState := LifecycleState o;
     BigqueryDataset := BigqueryDataset o |}.
Definition set_UpdateTime (v : option Timestamp) (o : t) : t :=
  {| Name := Name o; Description := Description o; CreateTime := CreateTime o;
     UpdateTime := v; LifecycleState := LifecycleState o;
     BigqueryDataset := BigqueryDataset o |}.
Definition set_LifecycleState (v : Z) (o : t) : t :=
  {| Name := Name o; Description := Description o; CreateTime := CreateTime o;
     UpdateTime := UpdateTime o; LifecycleState := v;
     BigqueryDataset := BigqueryDataset o |}.
End LoggingLink.

(** [pb.Link], the record of the [linkService] handlers and of the mapper. *)
Module Link.
Record t := {
  Name : string;
  Description : string;
  CreateTime : option Timestamp;
  LifecycleState : LifecycleState;
  BigqueryDataset : option BigQueryDataset.t
}.
Definition set_Name (v : string) (o : t) : t :=
  {| Name := v; Description := Description o; CreateTime := CreateTime o;
     LifecycleState := LifecycleState o;
     BigqueryDataset := BigqueryDataset o |}.
Definition set_CreateTime (v : option Timestamp) (o : t) : t :=
  {| Name := Name o; Description := Description o; CreateTime := v;
     LifecycleState := LifecycleState o;
     BigqueryDataset := BigqueryDataset o |}.
Definition set_LifecycleState (v : Z) (o : t) : t :=
  {| Name := Name o; Description := Description o; CreateTime := CreateTime o;
     LifecycleState := v; BigqueryDataset := BigqueryDataset o |}.
End Link.

(** ** Requests *)

Record GetLoggingLinkRequest := { get_Name : string }.
Record DeleteLoggingLinkRequest := { del_Name : string }.
Record CreateLoggingLinkRequest := {
  cl_Parent : string;
  cl_BucketId : string;
  cl_LinkId : string;
  cl_LoggingLink : option LoggingLink.t
}.
Record UpdateLoggingLinkRequest := {
  ul_Name : string;
  ul_LoggingLink : option LoggingLink.t;
  ul_UpdateMask : option (list string)
}.
Record GetLinkRequest := { gk_Name : string }.
Record DeleteLinkRequest := { dk_Name : string }.
Record CreateLinkRequest := {
  ck_Parent : string;
  ck_LinkId : string;
  ck_Link : option Link.t
}.

(** [req.GetLoggingLink().GetDescription()]: the nil-safe getters. *)
Definition GetDescription (o : option LoggingLink.t) : string :=
  match o with Some l => LoggingLink.Description l | None => "" end.

(** [req.GetUpdateMask().GetPaths()]. *)
Definition GetPaths (m : option (list string)) : list string :=
  match m with Some ps => ps | None => [] end.

(** ** The mock service and its storage *)

(** Modelled from the spec: the contents of the storage collaborator
    [s.storage], "a generic object store keyed by fully-qualified name": one
    keyed table per message kind. *)
Record MockService := {
  loggingLinks : gmap string LoggingLink.t;
  links : gmap string Link.t;
  buckets : gmap string LogBucket.t
}.

Definition set_loggingLinks (m : gmap string LoggingLink.t) (s : MockService) :=
  {| loggingLinks := m; links := links s; buckets := buckets s |}.
Definition set_links (m : gmap string Link.t) (s : MockService) :=
  {| loggingLinks := loggingLinks s; links := m; buckets := buckets s |}.
Definition set_buckets (m : gmap string LogBucket.t) (s : MockService) :=
  {| loggingLinks := loggingLinks s; links := links s; buckets := m |}.

(** A handler: it runs on the service's storage and leaves a storage behind,
    whatever its outcome. *)
Definition M (A : Type) : Type := MockService → result A * MockService.

#[global] Instance M_ret : MRet M := λ A a s, (Ok a, s).
#[global] Instance M_bind : MBind M := λ A B k m s,
  match m s with
  | (Ok a, s') => k a s'
  | (Err e, s') => (Err e, s')
  | (Panic p, s') => (Panic p, s')
  end.

Definition lift {A} (r : result A) : M A := λ s, (r, s).
Definition fail {A} (e : Status) : M A := λ s, (Err e, s).

(** One table of the storage: how to read it and how to replace it. *)
Record Table (V : Type) := {
  table : MockService → gmap string V;
  set_table : gmap string V → MockService → MockService
}.
Arguments table {V} _ _.
Arguments set_table {V} _ _ _.

Definition loggingLinkTable : Table LoggingLink.t :=
  {| table := loggingLinks; set_table := set_loggingLinks |}.
Definition linkTable : Table Link.t :=
  {| table := links; set_table := set_links |}.

(** Modelled from the spec: the storage collaborator [s.storage] (not part of
    these files), "a generic object store keyed by fully-qualified name
    supporting Get/Create/Update/Delete with existence-checking semantics":
    a miss is [NotFound], a duplicate key on create is [AlreadyExists]. *)
Definition storage_Get {V} (T : Table V) (fqn : string) : M V := λ s,
  match table T s !! fqn with
  | Some v => (Ok v, s)
  | None => (Err (Errorf NotFound "%s not found" [fqn]), s)
  end.

(** Modelled from the spec: [s.storage.Create], which signals a duplicate
    key with [AlreadyExists]. *)
Definition storage_Create {V} (T : Table V) (fqn : string) (obj : V) : M unit := λ s,
  match table T s !! fqn with
  | Some _ => (Err (Errorf AlreadyExists "%s already exists" [fqn]), s)
  | None => (Ok tt, set_table T (<[fqn := obj]> (table T s)) s)
  end.

(** Modelled from the spec: [s.storage.Update], which replaces the object
    under an existing key. *)
Definition storage_Update {V} (T : Table V) (fqn : string) (obj : V) : M unit := λ s,
  match table T s !! fqn with
  | Some _ => (Ok tt, set_table T (<[fqn := obj]> (table T s)) s)
  | None => (Err (Errorf NotFound "%s not found" [fqn]), s)
  end.

(** Modelled from the spec: [s.storage.Delete], which removes the object
    under an existing key and hands it back. *)
Definition storage_Delete {V} (T : Table V) (fqn : string) : M V := λ s,
  match table T s !! fqn with
  | Some v => (Ok v, set_table T (delete fqn (table T s)) s)
  | None => (Err (Errorf NotFound "%s not found" [fqn]), s)
  end.

(** Modelled from the spec: [createBucketIfNotExists] of the LogBucket mock
    (not part of these files), "a sibling creation routine that is idempotent
    (create-if-not-exists)". *)
Definition createBucketIfNotExists (bucket : LogBucket.t) : M unit := λ s,
  match buckets s !! LogBucket.Name bucket with
  | Some _ => (Ok tt, s)
  | None => (Ok tt, set_buckets (<[LogBucket.Name bucket := bucket]> (buckets s)) s)
  end.

(** Modelled from the spec: [populateDefaultsForLogBucket] of the LogBucket
    mock (not part of these files), called by [CreateLoggingLink] on the new
    link: "applies default population (unset lifecycle state becomes ACTIVE)". *)
Definition populateDefaultsForLogBucket (obj : LoggingLink.t) : LoggingLink.t :=
  if decide (LoggingLink.LifecycleState obj = LifecycleState_LIFECYCLE_STATE_UNSPECIFIED)
  then LoggingLink.set_LifecycleState LifecycleState_ACTIVE obj
  else obj.

(** [if err := m; err != nil { return nil, h(err) }]: the error of [m] is
    replaced before it is returned. *)
Definition on_error {A} (m : M A) (h : Status → Status) : M A := λ s,
  match m s with
  | (Err e, s') => (Err (h e), s')
  | r => r
  end.

(** The error returned by the Get handlers on a storage error. *)
Definition get_error (name : loggingLinkName) (err : Status) : Status :=
  if decide (code err = NotFound)
  then Errorf NotFound "Bucket `%s` does not exist" [BucketName name]
  else err.

(** [createLinkDefaultObjects]: the default bucket is named only for a
    folder parent. *)
Definition createLinkDefaultObjects (name : loggingLinkName) : M unit :=
  let bucket :=
    {| LogBucket.Name :=
         if negb (String.eqb (folder name) "")
         then "folders/" +:+ folder name +:+ "/locations/global/buckets/_Default"
         else "";
       LogBucket.Description := "Default bucket";
       LogBucket.LifecycleState := LifecycleState_ACTIVE;
       LogBucket.RetentionDays := 30 |} in
  createBucketIfNotExists bucket.

(** [populateDefaultsForLoggingLink] of [configService]. *)
Definition populateDefaultsForLoggingLink (obj : LoggingLink.t) : LoggingLink.t :=
  if decide (LoggingLink.LifecycleState obj = LifecycleState_LIFECYCLE_STATE_UNSPECIFIED)
  then LoggingLink.set_LifecycleState LifecycleState_ACTIVE obj
  else obj.

(** [populateDefaultsForLoggingLink] of [linkService]; no handler calls it. *)
Definition populateDefaultsForLink (obj : Link.t) : Link.t :=
  if decide (Link.LifecycleState obj = LifecycleState_LIFECYCLE_STATE_UNSPECIFIED)
  then Link.set_LifecycleState LifecycleState_ACTIVE obj
  else obj.

(** The loop of [UpdateLoggingLink] over the mask's paths: a recognised
    path is applied to [updated]; the first other path ends the call. *)
Fixpoint applyPaths (description : string) (paths : list string)
    (updated : LoggingLink.t) : result LoggingLink.t :=
  match paths with
  | [] => Ok updated
  | path :: rest =>
      if String.eqb path "description"
      then applyPaths description rest (LoggingLink.set_Description description updated)
      else Err (Errorf InvalidArgument "update_mask path %q not valid" [path])
  end.

(** The message types behind a [proto.Message]. *)
Inductive MessageKind := Kind_LogBucket | Kind_LoggingLink | Kind_Link.

Definition sameKind (a b : MessageKind) : bool :=
  match a, b with
  | Kind_LogBucket, Kind_LogBucket => true
  | Kind_LoggingLink, Kind_LoggingLink => true
  | Kind_Link, Kind_Link => true
  | _, _ => false
  end.

(** The type assertion of a [proto.Message] whose dynamic type is [have] to
    the message type [asserted]: the single-value form panics unless the two
    are the same type. *)
Definition typeAssert {A} (asserted have : MessageKind) (m : A) : result A :=
  if sameKind asserted have then Ok m else Panic InterfaceConversion.

(** [obj := proto.Clone(m)] followed by a write to a field of [obj]: a nil
    message stays nil, and the write panics. *)
Definition cloned {A} (m : option A) : result A :=
  match m with
  | Some o => Ok o
  | None => Panic NilDereference
  end.

Section Handlers.

Variable GetProjectByID : string → result ProjectData.
Local Abbreviation parse := (parseLoggingLinkName GetProjectByID).

(** *** configService *)

Definition GetLoggingLink (req : GetLoggingLinkRequest) : M LoggingLink.t :=
  name ← lift (parse (get_Name req));
  _ ← createLinkDefaultObjects name;
  fqn ← lift (loggingLinkName_String name);
  on_error (storage_Get loggingLinkTable fqn) (get_error name).

(** [now] is the value of [time.Now()]. *)
Definition CreateLoggingLink (now : Timestamp) (req : CreateLoggingLinkRequest)
    : M LoggingLink.t :=
  let reqName := cl_Parent req +:+ "/buckets/" +:+ cl_BucketId req
                 +:+ "/links/" +:+ cl_LinkId req in
  name ← lift (parse reqName);
  _ ← createLinkDefaultObjects name;
  fqn ← lift (loggingLinkName_String name);
  obj ← lift (cloned (cl_LoggingLink req));
  let obj := LoggingLink.set_Name fqn obj in
  let obj := LoggingLink.set_CreateTime (Some now) obj in
  let obj := LoggingLink.set_UpdateTime (Some now) obj in
  let obj := populateDefaultsForLogBucket obj in
  _ ← storage_Create loggingLinkTable fqn obj;
  mret obj.

(** In [updated := proto.Clone(existing)] the copy of [existing], a
    [*pb.LoggingLink], is asserted to [*pb.LogBucket], which it never is. The lines after the assertion are kept as they are written;
    they write fields that both message types have, and pass [updated] to
    [populateDefaultsForLoggingLink] and return it as the [*pb.LoggingLink]
    result. *)
Definition UpdateLoggingLink (now : Timestamp) (req : UpdateLoggingLinkRequest)
    : M LoggingLink.t :=
  let reqName := ul_Name req in
  name ← lift (parse reqName);
  _ ← createLinkDefaultObjects name;
  fqn ← lift (loggingLinkName_String name);
  existing ← storage_Get loggingLinkTable fqn;
  updated ← lift (typeAssert Kind_LogBucket Kind_LoggingLink existing);
  let updated := LoggingLink.set_CreateTime (LoggingLink.CreateTime existing) updated in
  let updated := LoggingLink.set_UpdateTime (Some now) updated in
  let paths := GetPaths (ul_UpdateMask req) in
  if Nat.eqb (List.length paths) 0 then
    fail (Errorf InvalidArgument "update_mask is required" [])
  else
    updated ← lift (applyPaths (GetDescription (ul_LoggingLink req)) paths updated);
    let updated := populateDefaultsForLoggingLink updated in
    _ ← storage_Update loggingLinkTable fqn updated;
    mret updated.

Definition DeleteLoggingLink (req : DeleteLoggingLinkRequest) : M unit :=
  name ← lift (parse (del_Name req));
  _ ← createLinkDefaultObjects name;
  fqn ← lift (loggingLinkName_String name);
  _ ← storage_Delete loggingLinkTable fqn;
  mret tt.

(** *** linkService *)

Definition GetLink (req : GetLinkRequest) : M Link.t :=
  name ← lift (parse (gk_Name req));
  fqn ← lift (loggingLinkName_String name);
  on_error (storage_Get linkTable fqn) (get_error name).

Definition CreateLink (now : Timestamp) (req : CreateLinkRequest) : M Link.t :=
  let reqName := ck_Parent req +:+ "/links/" +:+ ck_LinkId req in
  name ← lift (parse reqName);
  fqn ← lift (loggingLinkName_String name);
  obj ← lift (cloned (ck_Link req));
  let obj := Link.set_Name fqn obj in
  let obj := Link.set_CreateTime (Some now) obj in
  _ ← storage_Create linkTable fqn obj;
  mret obj.

Definition DeleteLink (req : DeleteLinkRequest) : M unit :=
  name ← lift (parse (dk_Name req));
  fqn ← lift (loggingLinkName_String name);
  _ ← storage_Delete linkTable fqn;
  mret tt.

End Handlers.

(** ** The field mapper *)

(** The Kubernetes-side types of apis/logging/v1alpha1, with the fields the
    mapper reads and writes; every field is a pointer. The source spells the
    accessors of the lifecycle state and of the dataset in two ways
    ([LifecycleState] and [GetLifeCycleState], [BigqueryDataset] and
    [BigQueryDataset]); each is one field here. *)
Module krm.
Record BigQueryDataset := { DatasetID : option string }.
Record LoggingLinkSpec := {
  Name : option string;
  Description : option string;
  CreateTime : option string;
  LifecycleState : option string;
  BigqueryDataset : option BigQueryDataset
}.
End krm.

(** Modelled from the spec: [direct.LazyPtr] of pkg/controller/direct (not
    part of these files), the "default-value-aware accessor so that an absent
    wire field maps to a zero-value domain field and vice versa": the zero
    value becomes a nil pointer, and a nil pointer reads as the zero value. *)
Definition LazyPtr (v : string) : option string :=
  if String.eqb v "" then None else Some v.
(** Modelled from the spec: [direct.ValueOf], the reading half of the
    default-value-aware accessors. *)
Definition ValueOf (p : option string) : string :=
  match p with Some v => v | None => "" end.

Definition BigQueryDataset_FromProto (i : option BigQueryDataset.t)
    : option krm.BigQueryDataset :=
  match i with
  | None => None
  | Some i => Some {| krm.DatasetID := LazyPtr (BigQueryDataset.DatasetId i) |}
  end.

Definition BigQueryDataset_ToProto (i : option krm.BigQueryDataset)
    : option BigQueryDataset.t :=
  match i with
  | None => None
  | Some i => Some {| BigQueryDataset.DatasetId := ValueOf (krm.DatasetID i) |}
  end.

Section Mapper.

(** The timestamp and enumeration conversions of pkg/controller/direct,
    collaborators of the mapper. *)
Variable StringTimestamp_FromProto : option Timestamp → option string.
Variable StringTimestamp_ToProto : option string → option Timestamp.
Variable Enum_FromProto : LifecycleState → option string.
Variable Enum_ToProto : option string → LifecycleState.

Definition LoggingLinkSpec_FromProto (i : option Link.t)
    : option krm.LoggingLinkSpec :=
  match i with
  | None => None
  | Some i =>
      Some {| krm.Name := LazyPtr (Link.Name i);
              krm.Description := LazyPtr (Link.Description i);
              krm.CreateTime := StringTimestamp_FromProto (Link.CreateTime i);
              krm.LifecycleState := Enum_FromProto (Link.LifecycleState i);
              krm.BigqueryDataset :=
                BigQueryDataset_FromProto (Link.BigqueryDataset i) |}
  end.

Definition LoggingLinkSpec_ToProto (i : option krm.LoggingLinkSpec)
    : option Link.t :=
  match i with
  | None => None
  | Some i =>
      Some {| Link.Name := ValueOf (krm.Name i);
              Link.Description := ValueOf (krm.Description i);
              Link.CreateTime := StringTimestamp_ToProto (krm.CreateTime i);
              Link.LifecycleState := Enum_ToProto (krm.LifecycleState i);
              Link.BigqueryDataset :=
                BigQueryDataset_ToProto (krm.BigqueryDataset i) |}
  end.

End Mapper.

(** ** Definitions used in the statements *)

(** The path of parent kind [kind]: what [String] builds in each branch. *)
Definition render (kind id loc bucket link : string) : string :=
  kind +:+ "/" +:+ id +:+ "/locations/" +:+ loc +:+ "/buckets/" +:+ bucket
  +:+ "/links/" +:+ link.

(** How many of the four parent-kind fields of an identity are populated. *)
Definition parentKinds (n : loggingLinkName) : nat :=
  (if project n is Some _ then 1 else 0)
  + (if String.eqb (folder n) "" then 0 else 1)
  + (if String.eqb (organization n) "" then 0 else 1)
  + (if String.eqb (billingAccount n) "" then 0 else 1).

(** A resolver that knows the single project [p1]. *)
Definition oneProject (id : string) : result ProjectData :=
  if String.eqb id "p1" then Ok {| ID := "p1"; Number := 1 |}
  else Err (Errorf NotFound "project %q not found" [id]).

(** Conversions for examples: the epoch and the two named lifecycle
    states. *)
Definition epoch : Timestamp := {| seconds := 0; nanos := 0 |}.
Definition epoch_FromProto (t : option Timestamp) : option string :=
  match t with
  | Some _ => Some "1970-01-01T00:00:00Z"
  | None => None
  end.
Definition epoch_ToProto (v : option string) : option Timestamp :=
  match v with
  | Some _ => Some epoch
  | None => None
  end.
Definition state_FromProto (v : LifecycleState) : option string :=
  if decide (v = LifecycleState_ACTIVE) then Some "ACTIVE" else None.
Definition state_ToProto (v : option string) : LifecycleState :=
  match v with
  | Some _ => LifecycleState_ACTIVE
  | None => LifecycleState_LIFECYCLE_STATE_UNSPECIFIED
  end.

(** A storage for examples: one logging link under a folder, stored with an
    unspecified lifecycle state. *)
Definition folderLink : string :=
  "folders/f1/locations/global/buckets/b1/links/l1".
Definition folderName : loggingLinkName :=
  {| project := None; folder := "f1"; organization := ""; billingAccount := "";
     location := "global"; BucketName := "b1"; LinkName := "l1" |}.
Definition organizationName : loggingLinkName :=
  {| project := None; folder := ""; organization := "o1"; billingAccount := "";
     location := "global"; BucketName := "b1"; LinkName := "l1" |}.

Definition storedLink : LoggingLink.t :=
  {| LoggingLink.Name := folderLink;
     LoggingLink.Description := "old";
     LoggingLink.CreateTime := Some epoch;
     LoggingLink.UpdateTime := Some epoch;
     LoggingLink.LifecycleState := LifecycleState_LIFECYCLE_STATE_UNSPECIFIED;
     LoggingLink.BigqueryDataset := Some {| BigQueryDataset.DatasetId := "ds" |} |}.
Definition oneLinkStore : MockService :=
  {| loggingLinks := {[ folderLink := storedLink ]}; links := ∅; buckets := ∅ |}.
Definition emptyStore : MockService :=
  {| loggingLinks := ∅; links := ∅; buckets := ∅ |}.
Definition noon : Timestamp := {| seconds := 43200; nanos := 0 |}.
Definition maskRequest (mask : option (list string)) : UpdateLoggingLinkRequest :=
  {| ul_Name := folderLink;
     ul_LoggingLink := Some (LoggingLink.set_Description "new" LoggingLink.zero);
     ul_UpdateMask := mask |}.
Definition plainLink : Link.t :=
  {| Link.Name := ""; Link.Description := "a link"; Link.CreateTime := None;
     Link.LifecycleState := LifecycleState_LIFECYCLE_STATE_UNSPECIFIED;
     Link.BigqueryDataset := None |}.
Definition createLinkRequest : CreateLinkRequest :=
  {| ck_Parent := "folders/f1/locations/global/buckets/b1";
     ck_LinkId := "l1"; ck_Link := Some plainLink |}.
(** The tokens put back together with the separator between them. *)
Fixpoint join_slash (tokens : list string) : string :=
  match tokens with
  | [] => ""
  | [t] => t
  | t :: rest => t +:+ String slash (join_slash rest)
  end.

(** An identity as the handlers expect it: one parent kind, and no
    separator inside a component. *)
Definition wellFormedName (n : loggingLinkName) : Prop :=
  parentKinds n = 1
  ∧ no_slash (folder n) = true ∧ no_slash (organization n) = true
  ∧ no_slash (billingAccount n) = true ∧ no_slash (location n) = true
  ∧ no_slash (BucketName n) = true ∧ no_slash (LinkName n) = true
  ∧ (∀ p, project n = Some p → no_slash (ID p) = true).

(** The key under which [createLinkDefaultObjects] ensures a bucket: the
    folder's default bucket, and the empty name for any other parent. *)
Definition defaultBucketName (name : loggingLinkName) : string :=
  if negb (String.eqb (folder name) "")
  then "folders/" +:+ folder name +:+ "/locations/global/buckets/_Default"
  else "".

(** A Kubernetes-side object without a pointer to an empty string. *)
Definition normalized (d : krm.LoggingLinkSpec) : Prop :=
  krm.Name d ≠ Some "" ∧ krm.Description d ≠ Some ""
  ∧ (∀ b, krm.BigqueryDataset d = Some b → krm.DatasetID b ≠ Some "").

Definition createLoggingLinkRequest : CreateLoggingLinkRequest :=
  {| cl_Parent := "folders/f1/locations/global"; cl_BucketId := "b1";
     cl_LinkId := "l1"; cl_LoggingLink := Some storedLink |}.
(** The storage after one [CreateLoggingLink] on the empty storage, and the
    record it holds. *)
Definition createdStore : MockService :=
  (CreateLoggingLink oneProject epoch createLoggingLinkRequest emptyStore).2.
Definition createdLink : LoggingLink.t :=
  {| LoggingLink.Name := folderLink;
     LoggingLink.Description := "old";
     LoggingLink.CreateTime := Some epoch;
     LoggingLink.UpdateTime := Some epoch;
     LoggingLink.LifecycleState := LifecycleState_ACTIVE;
     LoggingLink.BigqueryDataset := Some {| BigQueryDataset.DatasetId := "ds" |} |}.
Definition projectName : loggingLinkName :=
  {| project := Some {| ID := "p1"; Number := 1 |}; folder := "";
     organization := ""; billingAccount := "";
     location := "global"; BucketName := "b1"; LinkName := "l1" |}.
Definition projectName2 : loggingLinkName :=
  {| project := Some {| ID := "p1"; Number := 2 |}; folder := "";
     organization := ""; billingAccount := "";
     location := "global"; BucketName := "b1"; LinkName := "l1" |}.
Definition krmLink : krm.LoggingLinkSpec :=
  {| krm.Name := Some "l1"; krm.Description := None;
     krm.CreateTime := Some "1970-01-01T00:00:00Z";
     krm.LifecycleState := Some "ACTIVE";
     krm.BigqueryDataset := Some {| krm.DatasetID := Some "ds" |} |}.

(** * Properties *)

(** ** Splitting a rendered path *)

Lemma split_slash_token s : no_slash s = true → split_slash s = [s].
Proof.
  induction s as [|c r IH]; simpl; [reflexivity|].
  destruct (decide (c = slash)); [discriminate|].
  intros H. rewrite (IH H). reflexivity.
Qed.

Lemma split_slash_cons a r :
  no_slash a = true → split_slash (a +:+ String slash r) = a :: split_slash r.
Proof.
  induction a as [|c a IH]; simpl.
  - intros _. destruct (decide (slash = slash)); [reflexivity|congruence].
  - destruct (decide (c = slash)); [discriminate|].
    intros H. rewrite (IH H). reflexivity.
Qed.

Lemma split_render kind id loc bucket link :
  no_slash kind = true → no_slash id = true → no_slash loc = true →
  no_slash bucket = true → no_slash link = true →
  split_slash (render kind id loc bucket link)
  = [kind; id; "locations"; loc; "buckets"; bucket; "links"; link].
Proof.
  intros Hk Hi Hl Hb Hn. unfold render.
  change ("/" +:+ ?x) with (String slash x).
  rewrite (split_slash_cons kind _ Hk).
  change ("/locations/" +:+ ?x) with (String slash ("locations" +:+ String slash x)).
  rewrite (split_slash_cons id _ Hi).
  rewrite (split_slash_cons "locations" _ eq_refl).
  change ("/buckets/" +:+ ?x) with (String slash ("buckets" +:+ String slash x)).
  rewrite (split_slash_cons loc _ Hl).
  rewrite (split_slash_cons "buckets" _ eq_refl).
  change ("/links/" +:+ ?x) with (String slash ("links" +:+ String slash x)).
  rewrite (split_slash_cons bucket _ Hb).
  rewrite (split_slash_cons "links" _ eq_refl).
  rewrite (split_slash_token link Hn). reflexivity.
Qed.

(** ** The name codec *)

Section CodecFacts.

Variable GetProjectByID : string → result ProjectData.
Local Abbreviation parse := (parseLoggingLinkName GetProjectByID).

Lemma parse_projects id loc bucket link :
  no_slash id = true → no_slash loc = true →
  no_slash bucket = true → no_slash link = true →
  parse (render "projects" id loc bucket link)
  = p ← GetProjectByID id;
    Ok {| project := Some p; folder := ""; organization := "";
          billingAccount := ""; location := loc; BucketName := bucket;
          LinkName := link |}.
Proof.
  intros Hi Hl Hb Hn. unfold parseLoggingLinkName.
  rewrite (split_render "projects" id loc bucket link eq_refl Hi Hl Hb Hn).
  reflexivity.
Qed.

Lemma parse_folders id loc bucket link :
  no_slash id = true → no_slash loc = true →
  no_slash bucket = true → no_slash link = true →
  parse (render "folders" id loc bucket link)
  = Ok {| project := None; folder := id; organization := "";
          billingAccount := ""; location := loc; BucketName := bucket;
          LinkName := link |}.
Proof.
  intros Hi Hl Hb Hn. unfold parseLoggingLinkName.
  rewrite (split_render "folders" id loc bucket link eq_refl Hi Hl Hb Hn).
  reflexivity.
Qed.

(** A guard that asks for six tokens never holds: with six tokens there is
    no [tokens[6]]. *)
Lemma shape_six_not_true tokens kind : shape tokens 6 kind ≠ Ok true.
Proof.
  unfold shape, rand, tok_is, tok.
  do 7 (destruct tokens as [|? tokens]; simpl; try discriminate).
  repeat match goal with
         | |- context [String.eqb ?a ?b] => destruct (String.eqb a b); simpl
         end; discriminate.
Qed.

Lemma parse_eight_tokens_other kind id loc bucket link :
  kind = "organizations" ∨ kind = "billingAccounts" →
  no_slash id = true → no_slash loc = true →
  no_slash bucket = true → no_slash link = true →
  parse (render kind id loc bucket link)
  = Err (Errorf InvalidArgument "name %q is not valid"
           [render kind id loc bucket link]).
Proof.
  intros Hk Hi Hl Hb Hn. unfold parseLoggingLinkName.
  destruct Hk as [-> | ->].
  - rewrite (split_render "organizations" id loc bucket link eq_refl Hi Hl Hb Hn).
    reflexivity.
  - rewrite (split_render "billingAccounts" id loc bucket link eq_refl Hi Hl Hb Hn).
    reflexivity.
Qed.

(** C1. The documented [organizations/...] and [billingAccounts/...] paths,
    with their eight tokens, are not accepted by [parseLoggingLinkName]: the
    guards of the two branches ask for six tokens, so both paths fall through
    to the [InvalidArgument] error that carries the path. *)
Theorem parse_organizations_billingAccounts_rejected id loc bucket link :
  no_slash id = true → no_slash loc = true →
  no_slash bucket = true → no_slash link = true →
  parse (render "organizations" id loc bucket link)
  = Err (Errorf InvalidArgument "name %q is not valid"
           [render "organizations" id loc bucket link])
  ∧ parse (render "billingAccounts" id loc bucket link)
    = Err (Errorf InvalidArgument "name %q is not valid"
             [render "billingAccounts" id loc bucket link]).
Proof.
  intros Hi Hl Hb Hn.
  split; apply parse_eight_tokens_other; auto.
Qed.

(** With six tokens the organization guard reads [tokens[6]] and panics. *)
Lemma parse_six_tokens_panics :
  parse "organizations/o/locations/global/buckets/b" = Panic IndexOutOfRange.
Proof. reflexivity. Qed.

(** X6. Rendering then parsing gives the identity back for a folder parent
    whose components hold no separator. *)
Lemma roundtrip_folder n :
  project n = None → organization n = "" → billingAccount n = "" →
  folder n ≠ "" →
  no_slash (folder n) = true → no_slash (location n) = true →
  no_slash (BucketName n) = true → no_slash (LinkName n) = true →
  ∃ fqn, loggingLinkName_String n = Ok fqn ∧ parse fqn = Ok n.
Proof.
  destruct n as [p f o b l bk lk]; simpl.
  intros -> -> -> Hf Hsf Hsl Hsb Hsn.
  unfold loggingLinkName_String; simpl.
  destruct (String.eqb_spec f "") as [E|_]; [contradiction|]. simpl.
  eexists; split; [reflexivity|].
  exact (parse_folders f l bk lk Hsf Hsl Hsb Hsn).
Qed.

(** X7. Rendering then parsing gives the identity back for a project parent
    that the resolver maps back to itself, when no component holds a
    separator. *)
Lemma roundtrip_project n p :
  project n = Some p → folder n = "" → organization n = "" →
  billingAccount n = "" → GetProjectByID (ID p) = Ok p →
  no_slash (ID p) = true → no_slash (location n) = true →
  no_slash (BucketName n) = true → no_slash (LinkName n) = true →
  ∃ fqn, loggingLinkName_String n = Ok fqn ∧ parse fqn = Ok n.
Proof.
  destruct n as [q f o b l bk lk]; simpl.
  intros -> -> -> -> HR Hsp Hsl Hsb Hsn.
  unfold loggingLinkName_String; simpl.
  eexists; split; [reflexivity|].
  change (parse (render "projects" (ID p) l bk lk) = Ok
    {| project := Some p; folder := ""; organization := ""; billingAccount := "";
       location := l; BucketName := bk; LinkName := lk |}).
  rewrite (parse_projects (ID p) l bk lk Hsp Hsl Hsb Hsn), HR. reflexivity.
Qed.

(** C2. The round trip fails for an organization and for a billing-account
    parent: the rendered path has eight tokens and is rejected with
    [InvalidArgument]. *)
Theorem roundtrip_fails_organization_billingAccount n :
  project n = None → folder n = "" →
  (organization n ≠ "" ∧ billingAccount n = ""
   ∨ organization n = "" ∧ billingAccount n ≠ "") →
  no_slash (organization n) = true → no_slash (billingAccount n) = true →
  no_slash (location n) = true →
  no_slash (BucketName n) = true → no_slash (LinkName n) = true →
  ∃ fqn, loggingLinkName_String n = Ok fqn
         ∧ parse fqn = Err (Errorf InvalidArgument "name %q is not valid" [fqn])
         ∧ parse fqn ≠ Ok n.
Proof.
  destruct n as [p f o b l bk lk]; simpl.
  intros -> -> Hkind Hso Hsb' Hsl Hsb Hsn.
  unfold loggingLinkName_String; simpl.
  destruct Hkind as [[Ho ->] | [-> Hb]].
  - destruct (String.eqb_spec o "") as [E|_]; [contradiction|]. simpl.
    exists (render "organizations" o l bk lk); split; [reflexivity|].
    pose proof (parse_eight_tokens_other "organizations" o l bk lk
                  (or_introl eq_refl) Hso Hsl Hsb Hsn) as H.
    split; [exact H|]. rewrite H. discriminate.
  - destruct (String.eqb_spec b "") as [E|_]; [contradiction|]. simpl.
    exists (render "billingAccounts" b l bk lk); split; [reflexivity|].
    pose proof (parse_eight_tokens_other "billingAccounts" b l bk lk
                  (or_intror eq_refl) Hsb' Hsl Hsb Hsn) as H.
    split; [exact H|]. rewrite H. discriminate.
Qed.


(** C8. A path of the projects shape whose project id the resolver rejects
    makes [parseLoggingLinkName] return the resolver's error as it is, and
    every handler called with that name returns this error and leaves the
    storage untouched. *)
Theorem parse_unknown_project_propagates id loc bucket link e :
  no_slash id = true → no_slash loc = true →
  no_slash bucket = true → no_slash link = true →
  GetProjectByID id = Err e →
  let path := render "projects" id loc bucket link in
  parse path = Err e
  ∧ ∀ s now,
      GetLoggingLink GetProjectByID {| get_Name := path |} s = (Err e, s)
      ∧ DeleteLoggingLink GetProjectByID {| del_Name := path |} s = (Err e, s)
      ∧ GetLink GetProjectByID {| gk_Name := path |} s = (Err e, s)
      ∧ DeleteLink GetProjectByID {| dk_Name := path |} s = (Err e, s)
      ∧ (∀ body mask,
           UpdateLoggingLink GetProjectByID now
             {| ul_Name := path; ul_LoggingLink := body; ul_UpdateMask := mask |} s
           = (Err e, s))
      ∧ (∀ req, cl_Parent req +:+ "/buckets/" +:+ cl_BucketId req
                +:+ "/links/" +:+ cl_LinkId req = path →
           CreateLoggingLink GetProjectByID now req s = (Err e, s))
      ∧ (∀ req, ck_Parent req +:+ "/links/" +:+ ck_LinkId req = path →
           CreateLink GetProjectByID now req s = (Err e, s)).
Proof.
  intros Hi Hl Hb Hn HR path.
  assert (Hp : parse path = Err e).
  { unfold path. rewrite (parse_projects id loc bucket link Hi Hl Hb Hn), HR.
    reflexivity. }
  split; [exact Hp|]. intros s now.
  repeat split; intros;
    unfold GetLoggingLink, DeleteLoggingLink, GetLink, DeleteLink,
      UpdateLoggingLink, CreateLoggingLink, CreateLink, mbind, M_bind, lift;
    cbn [get_Name del_Name gk_Name dk_Name ul_Name];
    repeat match goal with H : _ = path |- _ => rewrite H end;
    rewrite Hp; reflexivity.
Qed.

End CodecFacts.

(** C10. [String] panics on the nil project exactly when no parent kind is
    populated, and returns a path whenever one is. *)
Theorem String_partial n :
  (organization n = "" → folder n = "" → billingAccount n = "" →
   project n = None → loggingLinkName_String n = Panic NilDereference)
  ∧ (organization n ≠ "" ∨ folder n ≠ "" ∨ billingAccount n ≠ ""
     ∨ project n ≠ None → ∃ path, loggingLinkName_String n = Ok path).
Proof.
  destruct n as [p f o b l bk lk]; unfold loggingLinkName_String; simpl.
  split.
  - intros -> -> -> ->. reflexivity.
  - intros H.
    destruct (String.eqb_spec o "") as [->|_]; simpl; [|eauto].
    destruct (String.eqb_spec f "") as [->|_]; simpl; [|eauto].
    destruct (String.eqb_spec b "") as [->|_]; simpl; [|eauto].
    destruct p as [p|]; [eauto|].
    destruct H as [H|[H|[H|H]]]; contradiction.
Qed.

(** ** The handlers *)

(** Ensuring the default bucket always succeeds and touches the bucket table
    only. *)
Lemma createLinkDefaultObjects_frame name s :
  ∃ s', createLinkDefaultObjects name s = (Ok tt, s')
        ∧ loggingLinks s' = loggingLinks s ∧ links s' = links s.
Proof.
  unfold createLinkDefaultObjects, createBucketIfNotExists.
  destruct (buckets s !! _); eexists; (split; [reflexivity|split; reflexivity]).
Qed.

Lemma applyPaths_valid description paths updated :
  Forall (λ p, p = "description") paths →
  applyPaths description paths updated
  = Ok (match paths with
        | [] => updated
        | _ :: _ => LoggingLink.set_Description description updated
        end).
Proof.
  intros H. revert updated. induction H as [|p ps -> _ IH]; intros updated.
  - reflexivity.
  - simpl. rewrite IH. destruct ps; reflexivity.
Qed.

Lemma applyPaths_invalid description paths updated :
  (∃ p, p ∈ paths ∧ p ≠ "description") →
  ∃ q, q ∈ paths ∧ q ≠ "description"
       ∧ applyPaths description paths updated
         = Err (Errorf InvalidArgument "update_mask path %q not valid" [q]).
Proof.
  revert updated. induction paths as [|p ps IH]; intros updated [q [Hin Hq]].
  - inversion Hin.
  - simpl. destruct (String.eqb_spec p "description") as [->|Hne].
    + assert (Hps : ∃ p, p ∈ ps ∧ p ≠ "description").
      { exists q. split; [|exact Hq].
        apply elem_of_cons in Hin as [->|Hin]; [contradiction|exact Hin]. }
      destruct (IH (LoggingLink.set_Description description updated) Hps)
        as (r & Hr & Hrd & E).
      exists r. split; [apply elem_of_cons; right; exact Hr|]. split; [exact Hrd|exact E].
    + exists p. split; [apply elem_of_cons; left; reflexivity|].
      split; [exact Hne|reflexivity].
Qed.

Lemma applyPaths_ok_valid description paths updated r :
  applyPaths description paths updated = Ok r →
  Forall (λ p, p = "description") paths.
Proof.
  revert updated. induction paths as [|p ps IH]; intros updated; simpl.
  - constructor.
  - destruct (String.eqb_spec p "description") as [->|Hne]; [|discriminate].
    intros H. constructor; [reflexivity|exact (IH _ H)].
Qed.

Section HandlerFacts.

Variable GetProjectByID : string → result ProjectData.
Local Abbreviation parse := (parseLoggingLinkName GetProjectByID).
Local Abbreviation Update := (UpdateLoggingLink GetProjectByID).

(** [UpdateLoggingLink] on a stored record: the assertion on the copy ends
    the call, with the links as they were. *)
Lemma UpdateLoggingLink_stored now req s name fqn existing :
  parse (ul_Name req) = Ok name →
  loggingLinkName_String name = Ok fqn →
  loggingLinks s !! fqn = Some existing →
  ∃ s1, Update now req s = (Panic InterfaceConversion, s1)
        ∧ loggingLinks s1 = loggingLinks s ∧ links s1 = links s.
Proof.
  intros Hp Hs Hl.
  destruct (createLinkDefaultObjects_frame name s) as (s1 & Hc & Hll & Hlk).
  exists s1. split; [|split; assumption].
  unfold UpdateLoggingLink, mbind, M_bind, lift, storage_Get.
  rewrite Hp, Hc, Hs. simpl. rewrite Hll, Hl. reflexivity.
Qed.

(** C3. With the mask [["description"]], on a request whose name parses and
    addresses a stored record, [UpdateLoggingLink] does not return or store
    an updated record: the call panics on the assertion of the copy to
    [*pb.LogBucket], and the record stays under its name with its old
    description. *)
Theorem UpdateLoggingLink_description_panics now req s name fqn existing :
  parse (ul_Name req) = Ok name →
  loggingLinkName_String name = Ok fqn →
  loggingLinks s !! fqn = Some existing →
  GetPaths (ul_UpdateMask req) = ["description"] →
  ∃ s',
    Update now req s = (Panic InterfaceConversion, s')
    ∧ (∀ updated, (Update now req s).1 ≠ Ok updated)
    ∧ loggingLinks s' !! fqn = Some existing.
Proof.
  intros Hp Hs Hl _.
  destruct (UpdateLoggingLink_stored now req s name fqn existing Hp Hs Hl)
    as (s1 & E & Hll & _).
  exists s1. split; [exact E|]. split.
  - intros updated. rewrite E. discriminate.
  - rewrite Hll. exact Hl.
Qed.

(** C5. On a request whose name parses and addresses a stored record,
    [UpdateLoggingLink] never reaches the check of the mask: whatever the
    mask, empty or with an unrecognised path, the call panics on the
    assertion of the copy and returns neither of the two [InvalidArgument]
    errors. *)
Theorem UpdateLoggingLink_mask_not_reached now req s name fqn existing :
  parse (ul_Name req) = Ok name →
  loggingLinkName_String name = Ok fqn →
  loggingLinks s !! fqn = Some existing →
  (Update now req s).1 = Panic InterfaceConversion
  ∧ (GetPaths (ul_UpdateMask req) = [] →
     (Update now req s).1
     ≠ Err (Errorf InvalidArgument "update_mask is required" []))
  ∧ (∀ q, q ∈ GetPaths (ul_UpdateMask req) → q ≠ "description" →
          (Update now req s).1
          ≠ Err (Errorf InvalidArgument "update_mask path %q not valid" [q])).
Proof.
  intros Hp Hs Hl.
  destruct (UpdateLoggingLink_stored now req s name fqn existing Hp Hs Hl)
    as (s1 & E & _ & _).
  rewrite E. simpl. split; [reflexivity|].
  split; intros; discriminate.
Qed.

(** C6. When the mask holds an unrecognised path, [UpdateLoggingLink] on a
    stored record does not return an [InvalidArgument] error, nor any error:
    it panics on the assertion of the copy. The tables of links are what they
    were before the call, and the record under the name is the original
    one. *)
Theorem UpdateLoggingLink_invalid_path_panics now req s name fqn existing :
  parse (ul_Name req) = Ok name →
  loggingLinkName_String name = Ok fqn →
  loggingLinks s !! fqn = Some existing →
  (∃ p, p ∈ GetPaths (ul_UpdateMask req) ∧ p ≠ "description") →
  ∃ s',
    Update now req s = (Panic InterfaceConversion, s')
    ∧ (∀ e, (Update now req s).1 ≠ Err e)
    ∧ loggingLinks s' = loggingLinks s
    ∧ links s' = links s
    ∧ loggingLinks s' !! fqn = Some existing.
Proof.
  intros Hp Hs Hl _.
  destruct (UpdateLoggingLink_stored now req s name fqn existing Hp Hs Hl)
    as (s1 & E & Hll & Hlk).
  exists s1. split; [exact E|]. split.
  - intros e. rewrite E. discriminate.
  - split; [exact Hll|]. split; [exact Hlk|]. rewrite Hll. exact Hl.
Qed.

(** C4. [CreateLink] stores and returns the request's record with the name
    and the creation time stamped and nothing else changed: an unspecified
    lifecycle state stays unspecified. *)
Theorem CreateLink_keeps_lifecycle_state now req s name fqn obj :
  parse (ck_Parent req +:+ "/links/" +:+ ck_LinkId req) = Ok name →
  loggingLinkName_String name = Ok fqn →
  ck_Link req = Some obj →
  links s !! fqn = None →
  let created := Link.set_CreateTime (Some now) (Link.set_Name fqn obj) in
  CreateLink GetProjectByID now req s
  = (Ok created, set_links (<[fqn := created]> (links s)) s)
  ∧ Link.LifecycleState created = Link.LifecycleState obj.
Proof.
  intros Hp Hs Ho Hl created. split; [|reflexivity].
  unfold CreateLink, mbind, M_bind, lift, storage_Create.
  rewrite Hp, Hs, Ho. simpl. rewrite Hl. reflexivity.
Qed.

(** What [CreateLoggingLink] stamps on the record it stores. *)
Lemma CreateLoggingLink_stamps now req s name fqn obj s1 :
  parse (cl_Parent req +:+ "/buckets/" +:+ cl_BucketId req
         +:+ "/links/" +:+ cl_LinkId req) = Ok name →
  createLinkDefaultObjects name s = (Ok tt, s1) →
  loggingLinkName_String name = Ok fqn →
  cl_LoggingLink req = Some obj →
  loggingLinks s !! fqn = None →
  ∃ created,
    CreateLoggingLink GetProjectByID now req s
    = (Ok created, set_loggingLinks (<[fqn := created]> (loggingLinks s1)) s1)
    ∧ LoggingLink.Name created = fqn
    ∧ LoggingLink.CreateTime created = Some now
    ∧ LoggingLink.UpdateTime created = Some now
    ∧ LoggingLink.Description created = LoggingLink.Description obj
    ∧ (LoggingLink.LifecycleState obj = LifecycleState_LIFECYCLE_STATE_UNSPECIFIED →
       LoggingLink.LifecycleState created = LifecycleState_ACTIVE).
Proof.
  intros Hp Hc Hs Ho Hl.
  destruct (createLinkDefaultObjects_frame name s) as (s1' & Hc' & Hll & _).
  rewrite Hc in Hc'. injection Hc' as <-.
  eexists. split.
  - unfold CreateLoggingLink, mbind, M_bind, lift, storage_Create.
    rewrite Hp, Hc, Hs, Ho. simpl. rewrite Hll, Hl. reflexivity.
  - unfold populateDefaultsForLogBucket.
    destruct (decide _) as [E|E]; simpl in *; repeat split; try reflexivity.
    intros E'. rewrite E' in E. contradiction.
Qed.

End HandlerFacts.

(** ** Examples on a concrete storage *)

Example parse_folderLink : parseLoggingLinkName oneProject folderLink = Ok folderName.
Proof. reflexivity. Qed.

Example String_folderName : loggingLinkName_String folderName = Ok folderLink.
Proof. reflexivity. Qed.

Example lookup_folderLink : loggingLinks oneLinkStore !! folderLink = Some storedLink.
Proof. vm_compute. reflexivity. Qed.

Example lookup_createdStore :
  loggingLinks createdStore !! folderLink = Some createdLink.
Proof. vm_compute. reflexivity. Qed.

(** ** The field mapper *)

Lemma ValueOf_LazyPtr v : ValueOf (LazyPtr v) = v.
Proof.
  unfold LazyPtr. destruct (String.eqb_spec v "") as [->|_]; reflexivity.
Qed.

Lemma BigQueryDataset_roundtrip d :
  BigQueryDataset_ToProto (BigQueryDataset_FromProto d) = d.
Proof.
  destruct d as [[id]|]; simpl; [|reflexivity].
  rewrite ValueOf_LazyPtr. reflexivity.
Qed.

(** ** The claims on concrete inputs *)

Lemma parse_organizations_billingAccounts_rejected_witness :
  parseLoggingLinkName oneProject
    "organizations/o1/locations/global/buckets/b1/links/l1"
  = Err (Errorf InvalidArgument "name %q is not valid"
           ["organizations/o1/locations/global/buckets/b1/links/l1"])
  ∧ parseLoggingLinkName oneProject
      "billingAccounts/o1/locations/global/buckets/b1/links/l1"
    = Err (Errorf InvalidArgument "name %q is not valid"
             ["billingAccounts/o1/locations/global/buckets/b1/links/l1"]).
Proof.
  exact (parse_organizations_billingAccounts_rejected oneProject
           "o1" "global" "b1" "l1" eq_refl eq_refl eq_refl eq_refl).
Defined.

Lemma roundtrip_fails_organization_billingAccount_witness :
  ∃ fqn, loggingLinkName_String organizationName = Ok fqn
         ∧ parseLoggingLinkName oneProject fqn
           = Err (Errorf InvalidArgument "name %q is not valid" [fqn])
         ∧ parseLoggingLinkName oneProject fqn ≠ Ok organizationName.
Proof.
  apply (roundtrip_fails_organization_billingAccount oneProject organizationName);
    try reflexivity.
  left. split; [discriminate|reflexivity].
Defined.



Lemma parse_unknown_project_propagates_witness :
  parseLoggingLinkName oneProject
    "projects/unknown-proj/locations/global/buckets/b/links/l"
  = Err (Errorf NotFound "project %q not found" ["unknown-proj"])
  ∧ (GetLoggingLink oneProject
       {| get_Name := "projects/unknown-proj/locations/global/buckets/b/links/l" |}
       oneLinkStore).1
    = Err (Errorf NotFound "project %q not found" ["unknown-proj"]).
Proof.
  destruct (parse_unknown_project_propagates oneProject
              "unknown-proj" "global" "b" "l"
              (Errorf NotFound "project %q not found" ["unknown-proj"])
              eq_refl eq_refl eq_refl eq_refl eq_refl) as [Hp Hh].
  split; [exact Hp|].
  destruct (Hh oneLinkStore noon) as [Hg _].
  exact (f_equal fst Hg).
Defined.

Lemma String_partial_witness :
  loggingLinkName_String
    {| project := None; folder := ""; organization := ""; billingAccount := "";
       location := "global"; BucketName := "b1"; LinkName := "l1" |}
  = Panic NilDereference
  ∧ ∃ path, loggingLinkName_String folderName = Ok path.
Proof.
  split.
  - apply (proj1 (String_partial _)); reflexivity.
  - apply (proj2 (String_partial folderName)). right; left. discriminate.
Defined.

Lemma UpdateLoggingLink_description_panics_witness :
  ∃ s',
    UpdateLoggingLink oneProject noon (maskRequest (Some ["description"]))
      createdStore = (Panic InterfaceConversion, s')
    ∧ (∀ updated,
         (UpdateLoggingLink oneProject noon (maskRequest (Some ["description"]))
            createdStore).1 ≠ Ok updated)
    ∧ loggingLinks s' !! folderLink = Some createdLink.
Proof.
  exact (UpdateLoggingLink_description_panics oneProject noon
           (maskRequest (Some ["description"])) createdStore
           folderName folderLink createdLink
           eq_refl eq_refl lookup_createdStore eq_refl).
Defined.

Lemma UpdateLoggingLink_mask_not_reached_witness :
  (UpdateLoggingLink oneProject noon (maskRequest None) createdStore).1
  = Panic InterfaceConversion
  ∧ (UpdateLoggingLink oneProject noon (maskRequest None) createdStore).1
    ≠ Err (Errorf InvalidArgument "update_mask is required" []).
Proof.
  destruct (UpdateLoggingLink_mask_not_reached oneProject noon (maskRequest None)
              createdStore folderName folderLink createdLink
              eq_refl eq_refl lookup_createdStore) as (E & Hempty & _).
  split; [exact E|]. exact (Hempty eq_refl).
Defined.

Lemma UpdateLoggingLink_invalid_path_panics_witness :
  ∃ s',
    UpdateLoggingLink oneProject noon
      (maskRequest (Some ["description"; "unknownField"])) createdStore
    = (Panic InterfaceConversion, s')
    ∧ (∀ e, (UpdateLoggingLink oneProject noon
               (maskRequest (Some ["description"; "unknownField"]))
               createdStore).1 ≠ Err e)
    ∧ loggingLinks s' = loggingLinks createdStore
    ∧ links s' = links createdStore
    ∧ loggingLinks s' !! folderLink = Some createdLink.
Proof.
  apply (UpdateLoggingLink_invalid_path_panics oneProject noon
           (maskRequest (Some ["description"; "unknownField"])) createdStore
           folderName folderLink createdLink eq_refl eq_refl lookup_createdStore).
  exists "unknownField". split; [|discriminate].
  apply elem_of_cons; right. apply elem_of_cons; left. reflexivity.
Defined.

Lemma CreateLink_keeps_lifecycle_state_witness :
  ∃ created s',
    CreateLink oneProject noon createLinkRequest emptyStore = (Ok created, s')
    ∧ links s' !! folderLink = Some created
    ∧ Link.LifecycleState created = LifecycleState_LIFECYCLE_STATE_UNSPECIFIED.
Proof.
  destruct (CreateLink_keeps_lifecycle_state oneProject noon createLinkRequest
              emptyStore folderName folderLink plainLink
              eq_refl eq_refl eq_refl eq_refl) as [E Hs].
  eexists _, _. split; [exact E|]. split; [apply lookup_insert_eq|exact Hs].
Defined.


(** * Further properties of the codec *)

Lemma split_slash_not_nil s : split_slash s ≠ [].
Proof.
  destruct s as [|c r]; simpl; [discriminate|].
  destruct (decide (c = slash)); [discriminate|].
  destruct (split_slash r); discriminate.
Qed.

Lemma join_split_slash s : join_slash (split_slash s) = s.
Proof.
  induction s as [|c r IH]; [reflexivity|].
  simpl. pose proof (split_slash_not_nil r) as Hne.
  destruct (decide (c = slash)) as [->|Hc].
  - destruct (split_slash r) as [|t ts]; [contradiction|].
    simpl in *. rewrite IH. reflexivity.
  - destruct (split_slash r) as [|t ts]; [contradiction|].
    destruct ts as [|u us]; simpl in *; rewrite <- IH; reflexivity.
Qed.

(** A guard that holds fixes the eight tokens. *)
Lemma shape_eight_true tokens kind :
  shape tokens 8 kind = Ok true →
  ∃ id loc bucket link,
    tokens = [kind; id; "locations"; loc; "buckets"; bucket; "links"; link].
Proof.
  unfold shape, rand, tok_is, tok.
  do 9 (destruct tokens as [|? tokens]; simpl; try discriminate).
  repeat match goal with
         | |- context [String.eqb ?a ?b] =>
             destruct (String.eqb_spec a b); simpl; try discriminate
         end.
  intros _. subst. eauto 10.
Qed.

Lemma shape_not_error tokens n kind e : shape tokens n kind ≠ Err e.
Proof.
  unfold shape, rand, tok_is, tok.
  destruct (Nat.eqb _ n); simpl; [|discriminate].
  repeat match goal with
         | |- context [tokens !! ?i] => destruct (tokens !! i); simpl; try discriminate
         | |- context [String.eqb ?a ?b] => destruct (String.eqb a b); simpl; try discriminate
         end.
Qed.

Section CodecMore.

Variable GetProjectByID : string → result ProjectData.

(** The two ways in which a parse succeeds. *)
Lemma parse_ok_cases name n :
  parseLoggingLinkName GetProjectByID name = Ok n →
  ∃ id loc bucket link,
    (split_slash name
     = ["projects"; id; "locations"; loc; "buckets"; bucket; "links"; link]
     ∧ ∃ p, GetProjectByID id = Ok p
            ∧ n = {| project := Some p; folder := ""; organization := "";
                     billingAccount := ""; location := loc;
                     BucketName := bucket; LinkName := link |})
    ∨ (split_slash name
       = ["folders"; id; "locations"; loc; "buckets"; bucket; "links"; link]
       ∧ n = {| project := None; folder := id; organization := "";
                billingAccount := ""; location := loc;
                BucketName := bucket; LinkName := link |}).
Proof.
  unfold parseLoggingLinkName.
  generalize (split_slash name) as tokens. intros tokens.
  destruct (shape tokens 8 "projects") as [[|]|e|p] eqn:E1; simpl;
    try discriminate.
  - destruct (shape_eight_true _ _ E1) as (id & loc & b & l & ->). simpl.
    destruct (GetProjectByID id) as [pd|e|p] eqn:ER; simpl; try discriminate.
    intros [= <-]. exists id, loc, b, l. left. split; [reflexivity|]. eauto.
  - destruct (shape tokens 8 "folders") as [[|]|e|p] eqn:E2; simpl;
      try discriminate.
    + destruct (shape_eight_true _ _ E2) as (id & loc & b & l & ->). simpl.
      intros [= <-]. exists id, loc, b, l. right. split; reflexivity.
    + destruct (shape tokens 6 "organizations") as [[|]|e|p] eqn:E3; simpl;
        try discriminate.
      { exfalso. exact (shape_six_not_true _ _ E3). }
      destruct (shape tokens 6 "billingAccounts") as [[|]|e|p] eqn:E4; simpl;
        try discriminate.
      exfalso. exact (shape_six_not_true _ _ E4).
Qed.

(** X1. A successful parse comes from an eight-token path whose first token
    is [projects] or [folders] and whose third, fifth and seventh tokens are
    the literals; location, bucket and link are the fourth, sixth and eighth
    token; the organization and the billing account are never set; the
    project is the record the resolver gave for the second token. *)
Theorem parse_ok_inversion name n :
  parseLoggingLinkName GetProjectByID name = Ok n →
  ∃ kind id,
    split_slash name
    = [kind; id; "locations"; location n; "buckets"; BucketName n;
       "links"; LinkName n]
    ∧ organization n = "" ∧ billingAccount n = ""
    ∧ (kind = "projects" ∧ folder n = ""
       ∧ (∃ p, GetProjectByID id = Ok p ∧ project n = Some p)
       ∨ kind = "folders" ∧ folder n = id ∧ project n = None).
Proof.
  intros Hp.
  destruct (parse_ok_cases name n Hp)
    as (id & loc & b & l & [(Ht & p & HR & ->) | (Ht & ->)]); simpl.
  - exists "projects", id. split; [exact Ht|]. split; [reflexivity|].
    split; [reflexivity|]. left. split; [reflexivity|].
    split; [reflexivity|]. exists p. split; [exact HR|reflexivity].
  - exists "folders", id. split; [exact Ht|]. split; [reflexivity|].
    split; [reflexivity|]. right. repeat split.
Qed.

(** X2. An error of the parser is either the [InvalidArgument] error that
    carries the whole name, or the error the resolver returned for the second
    token of a path of the projects shape. *)
Theorem parse_error_origin name e :
  parseLoggingLinkName GetProjectByID name = Err e →
  e = Errorf InvalidArgument "name %q is not valid" [name]
  ∨ ∃ id loc bucket link,
      split_slash name
      = ["projects"; id; "locations"; loc; "buckets"; bucket; "links"; link]
      ∧ GetProjectByID id = Err e.
Proof.
  unfold parseLoggingLinkName.
  generalize (split_slash name) as tokens. intros tokens.
  destruct (shape tokens 8 "projects") as [[|]|e1|p] eqn:E1; simpl;
    try discriminate.
  - destruct (shape_eight_true _ _ E1) as (id & loc & b & l & ->). simpl.
    destruct (GetProjectByID id) as [pd|e1|p] eqn:ER; simpl; try discriminate.
    intros [= <-]. right. eauto 10.
  - destruct (shape tokens 8 "folders") as [[|]|e2|p] eqn:E2; simpl;
      try discriminate.
    + destruct (shape_eight_true _ _ E2) as (id & loc & b & l & ->). simpl.
      discriminate.
    + destruct (shape tokens 6 "organizations") as [[|]|e3|p] eqn:E3; simpl;
        try discriminate.
      { exfalso. exact (shape_six_not_true _ _ E3). }
      * destruct (shape tokens 6 "billingAccounts") as [[|]|e4|p] eqn:E4; simpl;
          try discriminate.
        { exfalso. exact (shape_six_not_true _ _ E4). }
        { intros [= <-]. left. reflexivity. }
        { exfalso. exact (shape_not_error _ _ _ _ E4). }
      * exfalso. exact (shape_not_error _ _ _ _ E3).
    + exfalso. exact (shape_not_error _ _ _ _ E2).
  - exfalso. exact (shape_not_error _ _ _ _ E1).
Qed.

(** X3. A six-token path that starts like an organization or a billing
    account path makes the parser panic: its guard reads [tokens[6]]. *)
Theorem parse_six_tokens_panic kind id loc bucket :
  kind = "organizations" ∨ kind = "billingAccounts" →
  no_slash id = true → no_slash loc = true → no_slash bucket = true →
  parseLoggingLinkName GetProjectByID
    (kind +:+ "/" +:+ id +:+ "/locations/" +:+ loc +:+ "/buckets/" +:+ bucket)
  = Panic IndexOutOfRange.
Proof.
  intros Hk Hi Hl Hb. unfold parseLoggingLinkName.
  assert (Hs : ∀ k, no_slash k = true →
    split_slash (k +:+ "/" +:+ id +:+ "/locations/" +:+ loc +:+ "/buckets/" +:+ bucket)
    = [k; id; "locations"; loc; "buckets"; bucket]).
  { intros k Hk'.
    change ("/" +:+ ?x) with (String slash x).
    rewrite (split_slash_cons k _ Hk').
    change ("/locations/" +:+ ?x) with (String slash ("locations" +:+ String slash x)).
    rewrite (split_slash_cons id _ Hi), (split_slash_cons "locations" _ eq_refl).
    change ("/buckets/" +:+ ?x) with (String slash ("buckets" +:+ String slash x)).
    rewrite (split_slash_cons loc _ Hl), (split_slash_cons "buckets" _ eq_refl).
    rewrite (split_slash_token bucket Hb). reflexivity. }
  destruct Hk as [-> | ->].
  - rewrite (Hs "organizations" eq_refl). reflexivity.
  - rewrite (Hs "billingAccounts" eq_refl). reflexivity.
Qed.

(** X4. Parsing then rendering gives the name back: when the parsed identity
    has a folder, or a project whose [ID] is the id of the path, [String]
    returns the very string that was parsed. *)
Theorem parse_then_String name n :
  parseLoggingLinkName GetProjectByID name = Ok n →
  (folder n ≠ ""
   ∨ ∃ p, project n = Some p ∧ split_slash name !! 1 = Some (ID p)) →
  loggingLinkName_String n = Ok name.
Proof.
  intros Hp Hk.
  pose proof (join_split_slash name) as Hj.
  destruct (parse_ok_cases name n Hp)
    as (id & loc & b & l & [(Ht & p & _ & ->) | (Ht & ->)]);
    rewrite Ht in Hj; unfold loggingLinkName_String; simpl in *.
  - destruct Hk as [Hk | (q & Hq & Hid)]; [contradiction|].
    injection Hq as <-. rewrite Ht in Hid. simpl in Hid. injection Hid as <-.
    rewrite <- Hj. reflexivity.
  - destruct (String.eqb_spec id "") as [E|_]; simpl.
    + destruct Hk as [Hk | (q & Hq & _)]; [contradiction|discriminate].
    + rewrite <- Hj. reflexivity.
Qed.

End CodecMore.

Lemma wellFormedName_render n :
  wellFormedName n →
  ∃ kind id,
    loggingLinkName_String n
    = Ok (render kind id (location n) (BucketName n) (LinkName n))
    ∧ no_slash kind = true ∧ no_slash id = true
    ∧ (kind = "organizations" ∧ id = organization n ∧ folder n = ""
         ∧ billingAccount n = "" ∧ project n = None
       ∨ kind = "folders" ∧ id = folder n ∧ organization n = ""
         ∧ billingAccount n = "" ∧ project n = None
       ∨ kind = "billingAccounts" ∧ id = billingAccount n ∧ organization n = ""
         ∧ folder n = "" ∧ project n = None
       ∨ kind = "projects" ∧ organization n = "" ∧ folder n = ""
         ∧ billingAccount n = "" ∧ ∃ p, project n = Some p ∧ id = ID p).
Proof.
  destruct n as [p f o b l bk lk].
  unfold wellFormedName, parentKinds, loggingLinkName_String; simpl.
  intros (Hk & Hf & Ho & Hb & _ & _ & _ & Hp).
  destruct (String.eqb_spec o "") as [->|_];
    destruct (String.eqb_spec f "") as [->|_];
    destruct (String.eqb_spec b "") as [->|_];
    destruct p as [p|]; simpl in *; try discriminate.
  - exists "projects", (ID p). split; [reflexivity|].
    split; [reflexivity|]. split; [exact (Hp p eq_refl)|].
    do 3 right. repeat split. eauto.
  - exists "billingAccounts", b. split; [reflexivity|].
    split; [reflexivity|]. split; [exact Hb|].
    right; right; left. repeat split.
  - exists "folders", f. split; [reflexivity|].
    split; [reflexivity|]. split; [exact Hf|].
    right; left. repeat split.
  - exists "organizations", o. split; [reflexivity|].
    split; [reflexivity|]. split; [exact Ho|].
    left. repeat split.
Qed.

(** X5. [String] is injective on well-formed identities: two of them that
    render to the same path have the same parent kind and id, location,
    bucket and link (for a project parent, the same project [ID]). *)
Theorem String_injective n1 n2 path :
  wellFormedName n1 → wellFormedName n2 →
  loggingLinkName_String n1 = Ok path →
  loggingLinkName_String n2 = Ok path →
  folder n1 = folder n2 ∧ organization n1 = organization n2
  ∧ billingAccount n1 = billingAccount n2
  ∧ ID <$> project n1 = ID <$> project n2
  ∧ location n1 = location n2 ∧ BucketName n1 = BucketName n2
  ∧ LinkName n1 = LinkName n2.
Proof.
  intros W1 W2 H1 H2.
  destruct (wellFormedName_render n1 W1) as (k1 & i1 & R1 & Hk1 & Hi1 & C1).
  destruct (wellFormedName_render n2 W2) as (k2 & i2 & R2 & Hk2 & Hi2 & C2).
  destruct W1 as (_ & _ & _ & _ & Hl1 & Hb1 & Hn1 & _).
  destruct W2 as (_ & _ & _ & _ & Hl2 & Hb2 & Hn2 & _).
  rewrite R1 in H1. rewrite R2 in H2. injection H1 as <-.
  injection H2 as H2. apply (f_equal split_slash) in H2.
  rewrite (split_render k1 i1 _ _ _ Hk1 Hi1 Hl1 Hb1 Hn1) in H2.
  rewrite (split_render k2 i2 _ _ _ Hk2 Hi2 Hl2 Hb2 Hn2) in H2.
  injection H2 as Ek Ei El Eb En.
  rewrite El, Eb, En.
  destruct C1 as [(-> & -> & F1 & B1 & P1) | [(-> & -> & O1 & B1 & P1)
    | [(-> & -> & O1 & F1 & P1) | (-> & O1 & F1 & B1 & p1 & P1 & ->)]]];
  destruct C2 as [(-> & -> & F2 & B2 & P2) | [(-> & -> & O2 & B2 & P2)
    | [(-> & -> & O2 & F2 & P2) | (-> & O2 & F2 & B2 & p2 & P2 & ->)]]];
  try discriminate;
  repeat match goal with H : _ = _ |- _ => rewrite H end; simpl;
  repeat split; congruence.
Qed.

(** * Further properties of the handlers *)

Ltac run_handler :=
  unfold GetLoggingLink, CreateLoggingLink, UpdateLoggingLink, DeleteLoggingLink,
    GetLink, CreateLink, DeleteLink, mbind, M_bind, mret, M_ret, lift, fail,
    on_error, storage_Get, storage_Create, storage_Update, storage_Delete, cloned,
    typeAssert;
  cbn [table set_table loggingLinkTable linkTable sameKind].

Ltac step :=
  match goal with
  | |- context [parseLoggingLinkName ?R ?x] =>
      destruct (parseLoggingLinkName R x) eqn:?
  | |- context [createLinkDefaultObjects ?n ?s] =>
      let s1 := fresh "s1" in
      destruct (createLinkDefaultObjects_frame n s) as (s1 & -> & ? & ?)
  | |- context [loggingLinkName_String ?n] =>
      destruct (loggingLinkName_String n) eqn:?
  | |- context [match ?m !! ?k with _ => _ end] => destruct (m !! k) eqn:?
  | |- context [match ?o with Some _ => _ | None => _ end] => destruct o eqn:?
  | |- context [if Nat.eqb ?a ?b then _ else _] => destruct (Nat.eqb a b) eqn:?
  | |- context [applyPaths ?d ?p ?u] => destruct (applyPaths d p u) eqn:?
  end;
  cbn [fst snd links loggingLinks buckets set_loggingLinks set_links].

Lemma createLinkDefaultObjects_run name s :
  ∃ s',
    createLinkDefaultObjects name s = (Ok tt, s')
    ∧ loggingLinks s' = loggingLinks s ∧ links s' = links s
    ∧ is_Some (buckets s' !! defaultBucketName name).
Proof.
  unfold createLinkDefaultObjects, createBucketIfNotExists.
  cbn [LogBucket.Name]. fold (defaultBucketName name).
  destruct (buckets s !! defaultBucketName name) as [b|] eqn:E.
  - exists s. rewrite E. repeat split; eauto.
  - eexists. split; [reflexivity|]. cbn [loggingLinks links buckets set_buckets].
    rewrite lookup_insert_eq. repeat split; eauto.
Qed.

Lemma createLinkDefaultObjects_present name s :
  is_Some (buckets s !! defaultBucketName name) →
  createLinkDefaultObjects name s = (Ok tt, s).
Proof.
  intros [b Hb]. unfold createLinkDefaultObjects, createBucketIfNotExists.
  cbn [LogBucket.Name]. fold (defaultBucketName name). rewrite Hb. reflexivity.
Qed.

Section HandlerMore.

Variable GetProjectByID : string → result ProjectData.

(** X9. A folder path with an empty folder id crashes every handler: the
    name parses, no parent kind is set, and [String] dereferences the nil
    project. *)
Theorem handlers_panic_on_empty_folder loc bucket link s now :
  no_slash loc = true → no_slash bucket = true → no_slash link = true →
  let path := render "folders" "" loc bucket link in
  (GetLoggingLink GetProjectByID {| get_Name := path |} s).1 = Panic NilDereference
  ∧ (DeleteLoggingLink GetProjectByID {| del_Name := path |} s).1
    = Panic NilDereference
  ∧ (GetLink GetProjectByID {| gk_Name := path |} s).1 = Panic NilDereference
  ∧ (DeleteLink GetProjectByID {| dk_Name := path |} s).1 = Panic NilDereference
  ∧ (∀ body mask,
       (UpdateLoggingLink GetProjectByID now
          {| ul_Name := path; ul_LoggingLink := body; ul_UpdateMask := mask |} s).1
       = Panic NilDereference)
  ∧ (∀ req, cl_Parent req +:+ "/buckets/" +:+ cl_BucketId req
            +:+ "/links/" +:+ cl_LinkId req = path →
       (CreateLoggingLink GetProjectByID now req s).1 = Panic NilDereference)
  ∧ (∀ req, ck_Parent req +:+ "/links/" +:+ ck_LinkId req = path →
       (CreateLink GetProjectByID now req s).1 = Panic NilDereference).
Proof.
  intros Hl Hb Hn path.
  pose proof (parse_folders GetProjectByID "" loc bucket link eq_refl Hl Hb Hn)
    as Hp. fold path in Hp.
  repeat split; intros; run_handler;
    cbn [get_Name del_Name gk_Name dk_Name ul_Name];
    repeat match goal with H : _ = path |- _ => rewrite H end;
    rewrite Hp;
    try (destruct (createLinkDefaultObjects_frame
                     {| project := None; folder := ""; organization := "";
                        billingAccount := ""; location := loc;
                        BucketName := bucket; LinkName := link |} s)
           as (s1 & -> & _ & _));
    reflexivity.
Qed.

(** X10. Create then Get. When the request name parses to an identity that
    renders back to it and nothing is stored under it, [CreateLoggingLink]
    stores the request's record under that name, with the name, the creation
    time and the update time stamped, and a [GetLoggingLink] on the name
    returns the stored record and changes nothing. *)
Theorem CreateLoggingLink_then_Get now req s name obj :
  let reqName := cl_Parent req +:+ "/buckets/" +:+ cl_BucketId req
                 +:+ "/links/" +:+ cl_LinkId req in
  parseLoggingLinkName GetProjectByID reqName = Ok name →
  loggingLinkName_String name = Ok reqName →
  cl_LoggingLink req = Some obj →
  loggingLinks s !! reqName = None →
  ∃ created s1,
    CreateLoggingLink GetProjectByID now req s = (Ok created, s1)
    ∧ GetLoggingLink GetProjectByID {| get_Name := reqName |} s1 = (Ok created, s1)
    ∧ LoggingLink.Name created = reqName
    ∧ LoggingLink.Description created = LoggingLink.Description obj
    ∧ LoggingLink.CreateTime created = Some now
    ∧ LoggingLink.UpdateTime created = Some now
    ∧ LoggingLink.BigqueryDataset created = LoggingLink.BigqueryDataset obj.
Proof.
  intros reqName Hp Hs Ho Hl.
  destruct (createLinkDefaultObjects_run name s)
    as (s1 & Hc & Hll & Hlk & Hb).
  eexists _, _. split.
  - run_handler. fold reqName. rewrite Hp, Hc, Hs, Ho, Hll, Hl. reflexivity.
  - split.
    + run_handler. cbn [get_Name]. rewrite Hp.
      rewrite createLinkDefaultObjects_present by exact Hb.
      rewrite Hs. cbn [loggingLinks set_loggingLinks].
      rewrite lookup_insert_eq. reflexivity.
    + unfold populateDefaultsForLogBucket.
      destruct (decide _); repeat split; reflexivity.
Qed.

(** X11. The same for the link service: [CreateLink] stores the request's
    record with the name and the creation time stamped, and [GetLink] on the
    name returns it. *)
Theorem CreateLink_then_Get now req s name obj :
  let reqName := ck_Parent req +:+ "/links/" +:+ ck_LinkId req in
  parseLoggingLinkName GetProjectByID reqName = Ok name →
  loggingLinkName_String name = Ok reqName →
  ck_Link req = Some obj →
  links s !! reqName = None →
  ∃ s1,
    CreateLink GetProjectByID now req s
    = (Ok (Link.set_CreateTime (Some now) (Link.set_Name reqName obj)), s1)
    ∧ GetLink GetProjectByID {| gk_Name := reqName |} s1
      = (Ok (Link.set_CreateTime (Some now) (Link.set_Name reqName obj)), s1).
Proof.
  intros reqName Hp Hs Ho Hl.
  eexists. split.
  - run_handler. fold reqName. rewrite Hp, Hs, Ho, Hl. reflexivity.
  - run_handler. cbn [gk_Name]. rewrite Hp, Hs. cbn [links set_links].
    rewrite lookup_insert_eq. reflexivity.
Qed.

(** X12. A create on a name that is taken fails with the storage's
    [AlreadyExists] error and leaves both tables of links as they were, in
    both services. *)
Theorem Create_on_taken_name now name fqn s :
  loggingLinkName_String name = Ok fqn →
  (∀ req obj old,
     parseLoggingLinkName GetProjectByID
       (cl_Parent req +:+ "/buckets/" +:+ cl_BucketId req
        +:+ "/links/" +:+ cl_LinkId req) = Ok name →
     cl_LoggingLink req = Some obj →
     loggingLinks s !! fqn = Some old →
     ∃ s1, CreateLoggingLink GetProjectByID now req s
           = (Err (Errorf AlreadyExists "%s already exists" [fqn]), s1)
           ∧ loggingLinks s1 = loggingLinks s ∧ links s1 = links s)
  ∧ (∀ req obj old,
       parseLoggingLinkName GetProjectByID
         (ck_Parent req +:+ "/links/" +:+ ck_LinkId req) = Ok name →
       ck_Link req = Some obj →
       links s !! fqn = Some old →
       CreateLink GetProjectByID now req s
       = (Err (Errorf AlreadyExists "%s already exists" [fqn]), s)).
Proof.
  intros Hs. split.
  - intros req obj old Hp Ho Hl.
    destruct (createLinkDefaultObjects_frame name s) as (s1 & Hc & Hll & Hlk).
    exists s1. split; [|split; assumption].
    run_handler. rewrite Hp, Hc, Hs, Ho, Hll, Hl. reflexivity.
  - intros req obj old Hp Ho Hl.
    run_handler. rewrite Hp, Hs, Ho, Hl. reflexivity.
Qed.

(** X13. Get. On a name that parses, [GetLoggingLink] returns the record
    stored under the rendered name, and when there is none it fails with
    [NotFound] and a message that names the bucket of the identity; the
    tables of links are not changed. *)
Theorem GetLoggingLink_result req s name fqn :
  parseLoggingLinkName GetProjectByID (get_Name req) = Ok name →
  loggingLinkName_String name = Ok fqn →
  ∃ s1,
    loggingLinks s1 = loggingLinks s ∧ links s1 = links s
    ∧ GetLoggingLink GetProjectByID req s
      = match loggingLinks s !! fqn with
        | Some obj => (Ok obj, s1)
        | None =>
            (Err (Errorf NotFound "Bucket `%s` does not exist" [BucketName name]),
             s1)
        end.
Proof.
  intros Hp Hs.
  destruct (createLinkDefaultObjects_frame name s) as (s1 & Hc & Hll & Hlk).
  exists s1. split; [exact Hll|]. split; [exact Hlk|].
  run_handler. rewrite Hp, Hc, Hs, Hll.
  destruct (loggingLinks s !! fqn); reflexivity.
Qed.

(** X14. Delete then Get. [DeleteLoggingLink] on a stored record removes the
    record under that name and no other; a [GetLoggingLink] on the name then
    fails with [NotFound]. *)
Theorem DeleteLoggingLink_then_Get dreq greq s name fqn old :
  parseLoggingLinkName GetProjectByID (del_Name dreq) = Ok name →
  parseLoggingLinkName GetProjectByID (get_Name greq) = Ok name →
  loggingLinkName_String name = Ok fqn →
  loggingLinks s !! fqn = Some old →
  ∃ s1,
    DeleteLoggingLink GetProjectByID dreq s = (Ok tt, s1)
    ∧ loggingLinks s1 = delete fqn (loggingLinks s)
    ∧ links s1 = links s
    ∧ GetLoggingLink GetProjectByID greq s1
      = (Err (Errorf NotFound "Bucket `%s` does not exist" [BucketName name]), s1).
Proof.
  intros Hd Hg Hs Hl.
  destruct (createLinkDefaultObjects_run name s)
    as (s1 & Hc & Hll & Hlk & Hb).
  exists (set_loggingLinks (delete fqn (loggingLinks s1)) s1). split.
  - run_handler. rewrite Hd, Hc, Hs, Hll, Hl. rewrite <- Hll. reflexivity.
  - cbn [loggingLinks links set_loggingLinks]. rewrite Hll.
    split; [reflexivity|]. split; [exact Hlk|].
    run_handler. rewrite Hg.
    rewrite createLinkDefaultObjects_present by exact Hb.
    rewrite Hs. cbn [loggingLinks set_loggingLinks].
    rewrite lookup_delete_eq. reflexivity.
Qed.

(** X15. Update and Delete never create a record: on a name under which
    nothing is stored they fail with the storage's [NotFound] error, whatever
    the mask, and both tables of links stay as they were. *)
Theorem Update_Delete_on_missing now s name fqn :
  loggingLinkName_String name = Ok fqn →
  loggingLinks s !! fqn = None →
  (∀ req, parseLoggingLinkName GetProjectByID (ul_Name req) = Ok name →
     ∃ s1, UpdateLoggingLink GetProjectByID now req s
           = (Err (Errorf NotFound "%s not found" [fqn]), s1)
           ∧ loggingLinks s1 = loggingLinks s ∧ links s1 = links s)
  ∧ (∀ req, parseLoggingLinkName GetProjectByID (del_Name req) = Ok name →
       ∃ s1, DeleteLoggingLink GetProjectByID req s
             = (Err (Errorf NotFound "%s not found" [fqn]), s1)
             ∧ loggingLinks s1 = loggingLinks s ∧ links s1 = links s).
Proof.
  intros Hs Hl.
  destruct (createLinkDefaultObjects_frame name s) as (s1 & Hc & Hll & Hlk).
  split; intros req Hp; exists s1; (split; [|split; assumption]);
    run_handler; rewrite Hp, Hc, Hs, Hll, Hl; reflexivity.
Qed.

(** X16. [UpdateLoggingLink] never adds or removes a record: whatever the
    request and its outcome, the names under which logging links are stored
    are the same after the call, and the table of the link service is
    unchanged. *)
Theorem UpdateLoggingLink_keeps_names now req s :
  dom (loggingLinks (UpdateLoggingLink GetProjectByID now req s).2)
  = dom (loggingLinks s)
  ∧ links (UpdateLoggingLink GetProjectByID now req s).2 = links s.
Proof.
  run_handler. repeat step; split; congruence.
Qed.


(** X18. A create without a record in the request panics on the write of the
    name to the nil copy, and stores no link. *)
Theorem Create_without_body_panics now name fqn s :
  loggingLinkName_String name = Ok fqn →
  (∀ req,
     parseLoggingLinkName GetProjectByID
       (cl_Parent req +:+ "/buckets/" +:+ cl_BucketId req
        +:+ "/links/" +:+ cl_LinkId req) = Ok name →
     cl_LoggingLink req = None →
     ∃ s1, CreateLoggingLink GetProjectByID now req s = (Panic NilDereference, s1)
           ∧ loggingLinks s1 = loggingLinks s ∧ links s1 = links s)
  ∧ (∀ req,
       parseLoggingLinkName GetProjectByID
         (ck_Parent req +:+ "/links/" +:+ ck_LinkId req) = Ok name →
       ck_Link req = None →
       CreateLink GetProjectByID now req s = (Panic NilDereference, s)).
Proof.
  intros Hs. split.
  - intros req Hp Ho.
    destruct (createLinkDefaultObjects_frame name s) as (s1 & Hc & Hll & Hlk).
    exists s1. split; [|split; assumption].
    run_handler. rewrite Hp, Hc, Hs, Ho. reflexivity.
  - intros req Hp Ho. run_handler. rewrite Hp, Hs, Ho. reflexivity.
Qed.

(** X20. [UpdateLoggingLink] never returns a record and never changes a
    stored link: whatever the request and the storage, its outcome is an
    error or a panic, and both tables of links are exactly as before the
    call. *)
Theorem UpdateLoggingLink_never_succeeds now req s :
  (∀ updated, (UpdateLoggingLink GetProjectByID now req s).1 ≠ Ok updated)
  ∧ loggingLinks (UpdateLoggingLink GetProjectByID now req s).2 = loggingLinks s
  ∧ links (UpdateLoggingLink GetProjectByID now req s).2 = links s.
Proof.
  run_handler. repeat step; (split; [intros; discriminate|]); split; congruence.
Qed.

End HandlerMore.

(** * Further properties of the field mapper *)

Lemma LazyPtr_ValueOf p : LazyPtr (ValueOf p) = p ↔ p ≠ Some "".
Proof.
  destruct p as [v|]; simpl.
  - unfold LazyPtr. destruct (String.eqb_spec v "") as [->|Hne].
    + split; [discriminate|]. intros H. contradiction.
    + split; [congruence|reflexivity].
  - split; [discriminate|reflexivity].
Qed.

Section MapperMore.

Variable StringTimestamp_FromProto : option Timestamp → option string.
Variable StringTimestamp_ToProto : option string → option Timestamp.
Variable Enum_FromProto : LifecycleState → option string.
Variable Enum_ToProto : option string → LifecycleState.

(** X19. From the Kubernetes side: when the creation time and the lifecycle
    state of an object survive the conversions, [FromProto] after [ToProto]
    gives the object back exactly when it holds no pointer to an empty string
    (name, description, dataset id); such a pointer comes back nil. *)
Theorem LoggingLinkSpec_FromProto_ToProto d :
  StringTimestamp_FromProto (StringTimestamp_ToProto (krm.CreateTime d))
  = krm.CreateTime d →
  Enum_FromProto (Enum_ToProto (krm.LifecycleState d)) = krm.LifecycleState d →
  LoggingLinkSpec_FromProto StringTimestamp_FromProto Enum_FromProto
    (LoggingLinkSpec_ToProto StringTimestamp_ToProto Enum_ToProto (Some d))
  = Some d
  ↔ normalized d.
Proof.
  destruct d as [nm ds ct st bq]; unfold normalized; simpl.
  intros Hct Hst. rewrite Hct, Hst.
  pose proof (LazyPtr_ValueOf nm) as Hn.
  pose proof (LazyPtr_ValueOf ds) as Hd.
  split.
  - intros [= En Ed Eb].
    split; [apply Hn, En|]. split; [apply Hd, Ed|].
    intros b ->. simpl in Eb. injection Eb as Eb.
    destruct b as [id]; simpl in *. injection Eb as Eb.
    apply LazyPtr_ValueOf, Eb.
  - intros (Nn & Nd & Nb).
    rewrite (proj2 Hn Nn), (proj2 Hd Nd).
    destruct bq as [[id]|]; simpl; [|reflexivity].
    rewrite (proj2 (LazyPtr_ValueOf id) (Nb _ eq_refl)). reflexivity.
Qed.

(** X21. On a wire message, [ToProto] after [FromProto] reproduces the name,
    the description and the dataset (nil or with its id) exactly; the
    creation time and the lifecycle state of the result are those of the
    message passed through the two conversions and back. A nil message stays
    nil. *)
Theorem LoggingLinkSpec_ToProto_FromProto_fields :
  LoggingLinkSpec_ToProto StringTimestamp_ToProto Enum_ToProto
    (LoggingLinkSpec_FromProto StringTimestamp_FromProto Enum_FromProto None)
  = None
  ∧ ∀ x : Link.t,
      LoggingLinkSpec_ToProto StringTimestamp_ToProto Enum_ToProto
        (LoggingLinkSpec_FromProto StringTimestamp_FromProto Enum_FromProto
           (Some x))
      = Some {| Link.Name := Link.Name x;
                Link.Description := Link.Description x;
                Link.CreateTime :=
                  StringTimestamp_ToProto
                    (StringTimestamp_FromProto (Link.CreateTime x));
                Link.LifecycleState :=
                  Enum_ToProto (Enum_FromProto (Link.LifecycleState x));
                Link.BigqueryDataset := Link.BigqueryDataset x |}.
Proof.
  split; [reflexivity|].
  intros [name desc ct st ds]; simpl.
  rewrite !ValueOf_LazyPtr, BigQueryDataset_roundtrip. reflexivity.
Qed.

End MapperMore.

(** * The further properties on concrete inputs *)

Lemma parse_ok_inversion_witness :
  ∃ kind id,
    split_slash folderLink
    = [kind; id; "locations"; "global"; "buckets"; "b1"; "links"; "l1"]
    ∧ organization folderName = "" ∧ billingAccount folderName = ""
    ∧ (kind = "projects" ∧ folder folderName = ""
       ∧ (∃ p, oneProject id = Ok p ∧ project folderName = Some p)
       ∨ kind = "folders" ∧ folder folderName = id ∧ project folderName = None).
Proof. exact (parse_ok_inversion oneProject folderLink folderName eq_refl). Defined.

Lemma parse_error_origin_witness :
  Errorf NotFound "project %q not found" ["nobody"]
  = Errorf InvalidArgument "name %q is not valid"
      ["projects/nobody/locations/global/buckets/b1/links/l1"]
  ∨ ∃ id loc bucket link,
      split_slash "projects/nobody/locations/global/buckets/b1/links/l1"
      = ["projects"; id; "locations"; loc; "buckets"; bucket; "links"; link]
      ∧ oneProject id = Err (Errorf NotFound "project %q not found" ["nobody"]).
Proof.
  exact (parse_error_origin oneProject
           "projects/nobody/locations/global/buckets/b1/links/l1" _ eq_refl).
Defined.

Lemma parse_six_tokens_panic_witness :
  parseLoggingLinkName oneProject "billingAccounts/a1/locations/global/buckets/b1"
  = Panic IndexOutOfRange.
Proof.
  exact (parse_six_tokens_panic oneProject "billingAccounts" "a1" "global" "b1"
           (or_intror eq_refl) eq_refl eq_refl eq_refl).
Defined.

Lemma parse_then_String_witness :
  loggingLinkName_String projectName
  = Ok "projects/p1/locations/global/buckets/b1/links/l1".
Proof.
  apply (parse_then_String oneProject
           "projects/p1/locations/global/buckets/b1/links/l1" projectName eq_refl).
  right. exists {| ID := "p1"; Number := 1 |}. split; reflexivity.
Defined.

Lemma String_injective_witness :
  folder projectName = folder projectName2
  ∧ organization projectName = organization projectName2
  ∧ billingAccount projectName = billingAccount projectName2
  ∧ ID <$> project projectName = ID <$> project projectName2
  ∧ location projectName = location projectName2
  ∧ BucketName projectName = BucketName projectName2
  ∧ LinkName projectName = LinkName projectName2.
Proof.
  assert (W1 : wellFormedName projectName).
  { repeat split. intros p [= <-]. reflexivity. }
  assert (W2 : wellFormedName projectName2).
  { repeat split. intros p [= <-]. reflexivity. }
  exact (String_injective projectName projectName2
           "projects/p1/locations/global/buckets/b1/links/l1"
           W1 W2 eq_refl eq_refl).
Defined.

Lemma roundtrip_folder_witness :
  ∃ fqn, loggingLinkName_String folderName = Ok fqn
         ∧ parseLoggingLinkName oneProject fqn = Ok folderName.
Proof.
  apply (roundtrip_folder oneProject folderName); try reflexivity. discriminate.
Defined.

Lemma roundtrip_project_witness :
  ∃ fqn, loggingLinkName_String projectName = Ok fqn
         ∧ parseLoggingLinkName oneProject fqn = Ok projectName.
Proof.
  apply (roundtrip_project oneProject projectName {| ID := "p1"; Number := 1 |});
    reflexivity.
Defined.

Lemma handlers_panic_on_empty_folder_witness :
  (GetLoggingLink oneProject
     {| get_Name := "folders//locations/global/buckets/b1/links/l1" |}
     oneLinkStore).1 = Panic NilDereference.
Proof.
  exact (proj1 (handlers_panic_on_empty_folder oneProject "global" "b1" "l1"
                  oneLinkStore noon eq_refl eq_refl eq_refl)).
Defined.

Lemma CreateLoggingLink_then_Get_witness :
  ∃ created s1,
    CreateLoggingLink oneProject noon createLoggingLinkRequest emptyStore
    = (Ok created, s1)
    ∧ GetLoggingLink oneProject {| get_Name := folderLink |} s1 = (Ok created, s1)
    ∧ LoggingLink.Name created = folderLink
    ∧ LoggingLink.Description created = "old"
    ∧ LoggingLink.CreateTime created = Some noon
    ∧ LoggingLink.UpdateTime created = Some noon
    ∧ LoggingLink.BigqueryDataset created
      = Some {| BigQueryDataset.DatasetId := "ds" |}.
Proof.
  exact (CreateLoggingLink_then_Get oneProject noon createLoggingLinkRequest
           emptyStore folderName storedLink eq_refl eq_refl eq_refl eq_refl).
Defined.

Lemma CreateLink_then_Get_witness :
  ∃ s1,
    CreateLink oneProject noon createLinkRequest emptyStore
    = (Ok (Link.set_CreateTime (Some noon) (Link.set_Name folderLink plainLink)), s1)
    ∧ GetLink oneProject {| gk_Name := folderLink |} s1
      = (Ok (Link.set_CreateTime (Some noon) (Link.set_Name folderLink plainLink)),
         s1).
Proof.
  exact (CreateLink_then_Get oneProject noon createLinkRequest emptyStore
           folderName plainLink eq_refl eq_refl eq_refl eq_refl).
Defined.

Lemma Create_on_taken_name_witness :
  ∃ s1, CreateLoggingLink oneProject noon createLoggingLinkRequest oneLinkStore
        = (Err (Errorf AlreadyExists "%s already exists" [folderLink]), s1)
        ∧ loggingLinks s1 = loggingLinks oneLinkStore
        ∧ links s1 = links oneLinkStore.
Proof.
  exact (proj1 (Create_on_taken_name oneProject noon folderName folderLink
                  oneLinkStore eq_refl)
           createLoggingLinkRequest storedLink storedLink
           eq_refl eq_refl lookup_folderLink).
Defined.

Lemma GetLoggingLink_result_witness :
  ∃ s1,
    loggingLinks s1 = loggingLinks emptyStore ∧ links s1 = links emptyStore
    ∧ GetLoggingLink oneProject {| get_Name := folderLink |} emptyStore
      = (Err (Errorf NotFound "Bucket `%s` does not exist" ["b1"]), s1).
Proof.
  exact (GetLoggingLink_result oneProject {| get_Name := folderLink |} emptyStore
           folderName folderLink eq_refl eq_refl).
Defined.

Lemma DeleteLoggingLink_then_Get_witness :
  ∃ s1,
    DeleteLoggingLink oneProject {| del_Name := folderLink |} oneLinkStore
    = (Ok tt, s1)
    ∧ loggingLinks s1 = delete folderLink (loggingLinks oneLinkStore)
    ∧ links s1 = links oneLinkStore
    ∧ GetLoggingLink oneProject {| get_Name := folderLink |} s1
      = (Err (Errorf NotFound "Bucket `%s` does not exist" ["b1"]), s1).
Proof.
  exact (DeleteLoggingLink_then_Get oneProject {| del_Name := folderLink |}
           {| get_Name := folderLink |} oneLinkStore folderName folderLink
           storedLink eq_refl eq_refl eq_refl lookup_folderLink).
Defined.

Lemma Update_Delete_on_missing_witness :
  ∃ s1, UpdateLoggingLink oneProject noon (maskRequest (Some ["description"]))
          emptyStore
        = (Err (Errorf NotFound "%s not found" [folderLink]), s1)
        ∧ loggingLinks s1 = loggingLinks emptyStore
        ∧ links s1 = links emptyStore.
Proof.
  exact (proj1 (Update_Delete_on_missing oneProject noon emptyStore folderName
                  folderLink eq_refl eq_refl)
           (maskRequest (Some ["description"])) eq_refl).
Defined.

Lemma Create_without_body_panics_witness :
  CreateLink oneProject noon
    {| ck_Parent := "folders/f1/locations/global/buckets/b1"; ck_LinkId := "l1";
       ck_Link := None |} emptyStore
  = (Panic NilDereference, emptyStore).
Proof.
  exact (proj2 (Create_without_body_panics oneProject noon folderName folderLink
                  emptyStore eq_refl)
           {| ck_Parent := "folders/f1/locations/global/buckets/b1";
              ck_LinkId := "l1"; ck_Link := None |} eq_refl eq_refl).
Defined.

Lemma LoggingLinkSpec_FromProto_ToProto_witness :
  LoggingLinkSpec_FromProto epoch_FromProto state_FromProto
    (LoggingLinkSpec_ToProto epoch_ToProto state_ToProto (Some krmLink))
  = Some krmLink.
Proof.
  apply (proj2 (LoggingLinkSpec_FromProto_ToProto epoch_FromProto epoch_ToProto
                  state_FromProto state_ToProto krmLink eq_refl eq_refl)).
  split; [discriminate|]. split; [discriminate|].
  intros b [= <-]. discriminate.
Defined.

